(** * MLBAPP: the computational core of the MLB player trend analyzer

    A shallow embedding of [MLBAPP.py]: the event classifier
    ([get_statcast_data]), the per-game aggregation ([game_stats]), the
    trend evaluator ([calculate_hit_rates]) and the predictor
    ([predict_next_game_stat] and its caller, the [stat_line] loop), and
    of the rest of the page: the parsing of the player name and of the
    thresholds, the per-game season figures, the at-bat table and the
    career table ([get_career_stats]).

    Numbers.  Python integers are [Z].  A Python float is modelled as an
    exact rational or the not-a-number value: every float the program
    handles is a mean of integer counts, a product or sum of such means
    with the constants 0.4 and 0.3, or the missing value [NaN], and the
    properties below concern order, rounding to two decimals and
    propagation of [NaN], not the last binary digit. *)

From Stdlib Require Import ZArith QArith Qround Qabs Lia List String Ascii Bool.
From Stdlib Require Import DecimalString Permutation Sorted.
From Stdlib Require DecimalPos.
Import ListNotations.
Open Scope Z_scope.

(** ** Python numbers *)

Module PyNum.

Inductive pyfloat : Type :=
| NaN : pyfloat
| Fin : Q -> pyfloat.

Definition fmul (a b : pyfloat) : pyfloat :=
  match a, b with
  | Fin x, Fin y => Fin (x * y)
  | _, _ => NaN
  end.

Definition fadd (a b : pyfloat) : pyfloat :=
  match a, b with
  | Fin x, Fin y => Fin (x + y)
  | _, _ => NaN
  end.

(** [a <= b] on floats: false as soon as one side is [NaN]. *)
Definition fle (a b : pyfloat) : Prop :=
  match a, b with
  | Fin x, Fin y => (x <= y)%Q
  | _, _ => False
  end.

(** Rounding to the nearest integer, ties to the even neighbour: the
    rule of Python's [round] and of the [.0f] format. *)
Definition round_half_even (q : Q) : Z :=
  let n := Qnum q in
  let d := Z.pos (Qden q) in
  let f := n / d in
  match 2 * (n mod d) ?= d with
  | Lt => f
  | Gt => f + 1
  | Eq => if Z.even f then f else f + 1
  end.

(** [k] is a nearest integer to [n/d], the even one at a tie. *)
Definition nearest_even (n d k : Z) : Prop :=
  2 * Z.abs (n - k * d) <= d /\ (2 * Z.abs (n - k * d) = d -> Z.even k = true).

(** [round(x, ndigits)] for [ndigits >= 0]. *)
Definition pyround (x : pyfloat) (ndigits : nat) : pyfloat :=
  match x with
  | NaN => NaN
  | Fin q =>
      let scale := Z.to_pos (10 ^ Z.of_nat ndigits) in
      Fin (round_half_even (q * inject_Z (Z.pos scale)) # scale)
  end.

Fixpoint zsum (xs : list Z) : Z :=
  match xs with
  | [] => 0
  | x :: r => x + zsum r
  end.

(** [Series.mean()] of an integer column: [NaN] on an empty column. *)
Definition mean (xs : list Z) : pyfloat :=
  match xs with
  | [] => NaN
  | _ :: _ => Fin (zsum xs # Pos.of_nat (List.length xs))
  end.

End PyNum.

Import PyNum.

(** ** Data model *)

Module Frame.

(** A raw cell of the provider's table: missing, a number or text. *)
Inductive cell : Type :=
| NA : cell
| Num : Q -> cell
| Str : string -> cell.

(** One provider row.  [game_date] is the day number of the date; the
    pitch metadata columns are display only and left out.  The provider's
    rows always carry the date, the inning half and both teams; the two
    columns whose presence the program itself tests, [events] and [rbi],
    are recorded in the frame's column list. *)
Record PlateAppearance : Type := {
  game_date : Z;
  inning_topbot : string;
  home_team : string;
  away_team : string;
  events : option string;
  rbi : cell
}.

Record RawFrame : Type := {
  raw_columns : list string;
  raw_rows : list PlateAppearance
}.

(** The seven numeric columns. *)
Record Stats : Type := {
  s_1B : Z; s_2B : Z; s_3B : Z; s_HR : Z; s_TB : Z; s_H : Z; s_RBI : Z
}.

Record ClassifiedEvent : Type := {
  source : PlateAppearance;
  player_team : string;
  opponent : string;
  stats : Stats
}.

Record ClassifiedFrame : Type := {
  columns : list string;
  rows : list ClassifiedEvent
}.

Record GameStatLine : Type := {
  g_date : Z;
  g_opponent : string;
  g_stats : Stats
}.

(** The categories of the selection box. *)
Inductive category : Type :=
| Cat_1B | Cat_2B | Cat_3B | Cat_HR | Cat_TB | Cat_H.

Definition category_name (c : category) : string :=
  match c with
  | Cat_1B => "1B" | Cat_2B => "2B" | Cat_3B => "3B"
  | Cat_HR => "HR" | Cat_TB => "TB" | Cat_H => "H"
  end.

Definition stat (c : category) (s : Stats) : Z :=
  match c with
  | Cat_1B => s_1B s | Cat_2B => s_2B s | Cat_3B => s_3B s
  | Cat_HR => s_HR s | Cat_TB => s_TB s | Cat_H => s_H s
  end.

Definition stats_zero : Stats := Build_Stats 0 0 0 0 0 0 0.

Definition stats_add (a b : Stats) : Stats :=
  {| s_1B := s_1B a + s_1B b; s_2B := s_2B a + s_2B b;
     s_3B := s_3B a + s_3B b; s_HR := s_HR a + s_HR b;
     s_TB := s_TB a + s_TB b; s_H := s_H a + s_H b;
     s_RBI := s_RBI a + s_RBI b |}.

Definition stats_sum (l : list Stats) : Stats :=
  fold_right stats_add stats_zero l.

Definition has_column (c : string) (cols : list string) : bool :=
  existsb (String.eqb c) cols.

(** [df.empty]: no row or no column. *)
Definition frame_empty {A : Type} (cols : list string) (rs : list A) : bool :=
  match rs, cols with
  | [], _ => true
  | _, [] => true
  | _, _ => false
  end.

(** Outcome of an operation that may raise [KeyError]. *)
Inductive result (A : Type) : Type :=
| Ok : A -> result A
| KeyError : string -> result A.

Arguments Ok {A} _.
Arguments KeyError {A} _.

End Frame.

Import Frame.

(** ** Event classifier ([get_statcast_data], lines 23-48) *)

Module Classifier.

Section WithParser.

(** [pd.to_numeric] on a text cell: [None] when the text is not a number. *)
Variable to_numeric : string -> option Q.

(** [astype(int)] truncates toward zero. *)
Definition astype_int (q : Q) : Z := Z.quot (Qnum q) (Z.pos (Qden q)).

(** [pd.to_numeric(_, errors="coerce").fillna(0).astype(int)] on one cell. *)
Definition coerce_rbi (c : cell) : Z :=
  match c with
  | NA => 0
  | Num q => astype_int q
  | Str s =>
      match to_numeric s with
      | Some q => astype_int q
      | None => 0
      end
  end.

(** [df["events"].notnull()] on one row. *)
Definition notnull (r : PlateAppearance) : bool :=
  match events r with Some _ => true | None => false end.

Definition flag (label : string) (e : string) : Z :=
  if String.eqb e label then 1 else 0.

Definition empty_columns : list string :=
  ["game_date"; "1B"; "2B"; "3B"; "HR"; "TB"; "H"; "RBI"; "opponent"]%string.

Definition added_columns : list string :=
  ["player_team"; "opponent"; "1B"; "2B"; "3B"; "HR"; "TB"; "H"; "RBI"]%string.

(** Columns after the assignments of lines 29-46: an assignment to a new
    name appends the column, to an existing name it keeps its place. *)
Definition assign_columns (cols new : list string) : list string :=
  fold_left (fun acc c => if has_column c acc then acc else acc ++ [c]) new cols.

Definition classify (has_rbi : bool) (r : PlateAppearance) (e : string)
  : ClassifiedEvent :=
  let top := String.eqb (inning_topbot r) "Top" in
  let f1 := flag "single" e in
  let f2 := flag "double" e in
  let f3 := flag "triple" e in
  let f4 := flag "home_run" e in
  {| source := r;
     player_team := if top then away_team r else home_team r;
     opponent := if top then home_team r else away_team r;
     stats := {| s_1B := f1; s_2B := f2; s_3B := f3; s_HR := f4;
                 s_TB := f1 + f2 * 2 + f3 * 3 + f4 * 4;
                 s_H := f1 + f2 + f3 + f4;
                 s_RBI := if has_rbi then coerce_rbi (rbi r) else 0 |} |}.

(** Rows with a null outcome are dropped (line 26), the others classified. *)
Fixpoint classify_rows (has_rbi : bool) (rs : list PlateAppearance)
  : list ClassifiedEvent :=
  match rs with
  | [] => []
  | r :: rest =>
      match events r with
      | None => classify_rows has_rbi rest
      | Some e => classify has_rbi r e :: classify_rows has_rbi rest
      end
  end.

(** The frame the provider returned stands for [statcast_batter(...)]. *)
Definition get_statcast_data (df : RawFrame) : ClassifiedFrame :=
  if frame_empty (raw_columns df) (raw_rows df)
     || negb (has_column "events" (raw_columns df))
  then {| columns := empty_columns; rows := [] |}
  else {| columns := assign_columns (raw_columns df) added_columns;
          rows := classify_rows (has_column "rbi" (raw_columns df))
                                (raw_rows df) |}.


End WithParser.

(** A parser for unsigned decimal integers, used to run the classifier
    on concrete tables. *)
Definition digit_of (c : ascii) : option Z :=
  let n := Z.of_nat (nat_of_ascii c) in
  if (48 <=? n) && (n <=? 57) then Some (n - 48) else None.

Fixpoint parse_digits (acc : Z) (s : string) : option Z :=
  match s with
  | EmptyString => Some acc
  | String c r =>
      match digit_of c with
      | Some d => parse_digits (10 * acc + d) r
      | None => None
      end
  end.

Definition parse_decimal (s : string) : option Q :=
  match s with
  | EmptyString => None
  | _ => option_map inject_Z (parse_digits 0 s)
  end.

End Classifier.

Import Classifier.

(** ** Aggregator (lines 164-165) *)

Module Aggregator.

Definition key : Type := (Z * string)%type.

Definition key_of (c : ClassifiedEvent) : key := (game_date (source c), opponent c).

Definition line_key (g : GameStatLine) : key := (g_date g, g_opponent g).

Definition key_eqb (a b : key) : bool :=
  (fst a =? fst b) && String.eqb (snd a) (snd b).

(** Order of the group keys: by date, then by opponent. *)
Definition key_leb (a b : key) : bool :=
  (fst a <? fst b) || ((fst a =? fst b) && String.leb (snd a) (snd b)).

Definition key_eq_dec (a b : key) : {a = b} + {a <> b}.
Proof.
  decide equality; [apply string_dec | apply Z.eq_dec].
Defined.

(** Stable insertion sort: the model of [sort_values] and of the key
    sort of [groupby].  The library's default sort leaves the order of
    lines of one date open; no property below depends on that order. *)
Fixpoint insert_by {A : Type} (leb : A -> A -> bool) (x : A) (l : list A)
  : list A :=
  match l with
  | [] => [x]
  | y :: r => if leb x y then x :: y :: r else y :: insert_by leb x r
  end.

Definition sort_by {A : Type} (leb : A -> A -> bool) (l : list A) : list A :=
  fold_right (insert_by leb) [] l.

Definition group_rows (k : key) (rs : list ClassifiedEvent)
  : list ClassifiedEvent :=
  filter (fun c => key_eqb (key_of c) k) rs.

Definition group_line (rs : list ClassifiedEvent) (k : key) : GameStatLine :=
  {| g_date := fst k; g_opponent := snd k;
     g_stats := stats_sum (map stats (group_rows k rs)) |}.

(** [groupby(["game_date","opponent"])[[...]].sum().reset_index()] on the
    rows: one line per distinct key, in key order. *)
Definition groupby_sum (rs : list ClassifiedEvent) : list GameStatLine :=
  map (group_line rs) (sort_by key_leb (nodup key_eq_dec (map key_of rs))).

Definition date_asc (a b : GameStatLine) : bool := g_date a <=? g_date b.
Definition date_desc (a b : GameStatLine) : bool := g_date b <=? g_date a.


(** [sort_values("game_date", ascending=...)]. *)
Definition sort_values (ascending : bool) (l : list GameStatLine)
  : list GameStatLine :=
  sort_by (if ascending then date_asc else date_desc) l.

Definition head {A : Type} (n : nat) (l : list A) : list A := firstn n l.

(** Line 165 with the number of games kept as a parameter. *)
Definition last_games (k : nat) (l : list GameStatLine) : list GameStatLine :=
  sort_values true (head k (sort_values false l)).

Definition group_columns : list string := ["game_date"; "opponent"]%string.

Definition summed_columns : list string :=
  ["1B"; "2B"; "3B"; "HR"; "TB"; "H"; "RBI"]%string.

(** The first of [need] that [cols] lacks. *)
Fixpoint missing_column (cols need : list string) : option string :=
  match need with
  | [] => None
  | c :: r => if has_column c cols then missing_column cols r else Some c
  end.

(** Line 164 on a frame: [KeyError] on a missing column. *)
Definition grouped (df : ClassifiedFrame) : result (list GameStatLine) :=
  match missing_column (columns df) (group_columns ++ summed_columns) with
  | Some c => KeyError c
  | None => Ok (groupby_sum (rows df))
  end.

(** Lines 164-165: the [game_stats] table. *)
Definition game_stats (df : ClassifiedFrame) : result (list GameStatLine) :=
  match grouped df with
  | Ok l => Ok (last_games 10 l)
  | KeyError c => KeyError c
  end.

End Aggregator.

Import Aggregator.

(** ** Trend evaluator ([calculate_hit_rates], lines 69-79) *)

Module Trend.

Record TrendRow : Type := {
  Trend : string;
  Last_10 : string;
  Last_5 : string;
  Last_3 : string
}.

(** [s.iloc[-w:]]: the last [w] entries, all of them when there are fewer. *)
Definition iloc_last {A : Type} (w : nat) (l : list A) : list A :=
  skipn (List.length l - w) l.

(** [sum()] of a boolean column. *)
Definition count_true (hits : list bool) : Z := zsum (map Z.b2z hits).

(** [df[category] >= t]. *)
Definition hit_flags (df : list GameStatLine) (c : category) (t : Z)
  : list bool :=
  map (fun g => t <=? stat c (g_stats g)) df.

(** [hits.iloc[-w:].sum()]. *)
Definition window_hits (w : positive) (df : list GameStatLine) (c : category)
  (t : Z) : Z :=
  count_true (iloc_last (Pos.to_nat w) (hit_flags df c t)).

(** [(count / w) * 100]. *)
Definition rate_percent (w : positive) (count : Z) : pyfloat :=
  fmul (Fin (count # w)) (Fin (inject_Z 100)).

Definition show_Z (z : Z) : string := NilZero.string_of_int (Z.to_int z).

(** The [.0f] format of a float that is not negative. *)
Definition format_0f (x : pyfloat) : string :=
  match x with
  | NaN => "nan"
  | Fin q => show_Z (round_half_even q)
  end.

(** One cell of the table: ["<count>/<w> (<percent>%)"]. *)
Definition rate_cell (w : positive) (count : Z) : string :=
  (show_Z count ++ "/" ++ show_Z (Z.pos w)
   ++ " (" ++ format_0f (rate_percent w count) ++ "%)")%string.

Definition calculate_hit_rates (df : list GameStatLine) (c : category)
  (trend_values : list Z) : list TrendRow :=
  map (fun t =>
         {| Trend := (category_name c ++ " ≥ " ++ show_Z t)%string;
            Last_10 := rate_cell 10 (window_hits 10 df c t);
            Last_5 := rate_cell 5 (window_hits 5 df c t);
            Last_3 := rate_cell 3 (window_hits 3 df c t) |})
      trend_values.

(** The count the specification describes: the games among the last [w]
    whose value reaches the threshold. *)
Definition hits_spec (w : nat) (df : list GameStatLine) (c : category) (t : Z)
  : nat :=
  List.length (filter (fun g => t <=? stat c (g_stats g)) (iloc_last w df)).

End Trend.

Import Trend.

(** ** Predictor ([predict_next_game_stat], lines 81-87, and the
    [stat_line] loop, lines 194-202) *)

Module Predictor.

Definition weights : list pyfloat := [Fin 0.4; Fin 0.3; Fin 0.3].

Definition weight (i : nat) : pyfloat := nth i weights NaN.

Definition predict_next_game_stat (season_avg vs_team_avg recent_avg : pyfloat)
  : pyfloat :=
  pyround
    (fadd (fadd (fmul season_avg (weight 0)) (fmul vs_team_avg (weight 1)))
          (fmul recent_avg (weight 2)))
    2.

(** The blend as the specification writes it, on exact rationals. *)
Definition blend_spec (s v r : Q) : Q := (0.4 * s + 0.3 * v + 0.3 * r)%Q.


(** [df.groupby("game_date")[[cat]].sum()[cat]]: the per-date totals. *)
Definition per_date_sums (c : category) (rs : list ClassifiedEvent) : list Z :=
  map (fun d =>
         zsum (map (fun e => stat c (stats e))
                   (filter (fun e => game_date (source e) =? d) rs)))
      (sort_by Z.leb (nodup Z.eq_dec (map (fun e => game_date (source e)) rs))).

Section WithMatcher.

(** [str.contains(pattern, case=False, na=False)] on one opponent. *)
Variable str_contains : string -> string -> bool.

(** Line 100. *)
Definition df_filtered (opponent_input : string) (statcast_df : ClassifiedFrame)
  : ClassifiedFrame :=
  match opponent_input with
  | EmptyString => statcast_df
  | _ => {| columns := columns statcast_df;
            rows := filter (fun e => str_contains opponent_input (opponent e))
                           (rows statcast_df) |}
  end.

Definition season_avg (c : category) (statcast_df : ClassifiedFrame) : pyfloat :=
  mean (per_date_sums c (rows statcast_df)).

Definition vs_team_avg (c : category) (filtered : ClassifiedFrame) : pyfloat :=
  if negb (frame_empty (columns filtered) (rows filtered))
  then mean (per_date_sums c (rows filtered))
  else Fin 0.

Definition recent_avg (c : category) (games : list GameStatLine) : pyfloat :=
  mean (map (fun g => stat c (g_stats g)) games).

Definition categories : list category := [Cat_1B; Cat_2B; Cat_3B; Cat_HR; Cat_TB].

(** Lines 196-202: the predicted value of every category, for a
    non-empty opponent filter. *)
Definition stat_line (opponent_input : string) (statcast_df : ClassifiedFrame)
  : result (list (category * pyfloat)) :=
  let filtered := df_filtered opponent_input statcast_df in
  match game_stats filtered with
  | KeyError k => KeyError k
  | Ok games =>
      Ok (map (fun c =>
                 (c, predict_next_game_stat (season_avg c statcast_df)
                                            (vs_team_avg c filtered)
                                            (recent_avg c games)))
              categories)
  end.

End WithMatcher.

(** Case-insensitive search of a literal pattern, the meaning of
    [str.contains(p, case=False)] for a pattern without regular-expression
    operators. *)
Definition lower (c : ascii) : ascii :=
  let n := nat_of_ascii c in
  if (Nat.leb 65 n && Nat.leb n 90)%bool then ascii_of_nat (n + 32) else c.

Fixpoint lower_string (s : string) : string :=
  match s with
  | EmptyString => EmptyString
  | String c r => String (lower c) (lower_string r)
  end.

Fixpoint contains_from (p s : string) : bool :=
  String.prefix p s
  || match s with
     | EmptyString => false
     | String _ r => contains_from p r
     end.

Definition contains_literal (p s : string) : bool :=
  contains_from (lower_string p) (lower_string s).

End Predictor.

Import Predictor.

(** ** Sample data *)

Module Sample.

Definition pa (d : Z) (half home away : string) (e : option string) (r : cell)
  : PlateAppearance :=
  {| game_date := d; inning_topbot := half; home_team := home;
     away_team := away; events := e; rbi := r |}.

Definition provider_columns : list string :=
  ["game_date"; "inning_topbot"; "home_team"; "away_team"; "events"; "rbi"]%string.

Definition single_row : PlateAppearance :=
  pa 100 "Top" "NYY" "BOS" (Some "single"%string) (Str "1").

(** A home run whose RBI cell cannot be read. *)
Definition homer_row : PlateAppearance :=
  pa 100 "Top" "NYY" "BOS" (Some "home_run"%string) (Str "n/a").

Definition homer_event : ClassifiedEvent :=
  classify parse_decimal true homer_row "home_run".

(** Two plate appearances of one game: a single and a home run. *)
Definition single_and_homer : RawFrame :=
  {| raw_columns := provider_columns;
     raw_rows := [single_row; homer_row] |}.

(** The same game with a row without outcome, and a strikeout the day
    after. *)
Definition two_days : RawFrame :=
  {| raw_columns := provider_columns;
     raw_rows :=
       [ single_row; homer_row;
         pa 100 "Top" "NYY" "BOS" None NA;
         pa 101 "Bot" "BOS" "NYY" (Some "strikeout"%string) NA ] |}.

Definition no_rows : RawFrame :=
  {| raw_columns := provider_columns; raw_rows := [] |}.

Definition line (d : Z) (hr : Z) : GameStatLine :=
  {| g_date := d; g_opponent := "NYY";
     g_stats := Build_Stats 0 0 0 hr (4 * hr) hr 0 |}.

(** Home runs 0,1,0,2,1 over five games, oldest first. *)
Definition five_games : list GameStatLine :=
  [line 1 0; line 2 1; line 3 0; line 4 2; line 5 1].

Definition ten_games : list GameStatLine :=
  five_games ++ [line 6 0; line 7 0; line 8 3; line 9 1; line 10 0].

End Sample.

Import Sample.

(** ** Text ([str.split], [str.strip], [str.isdigit], [int]) *)

Module Text.


(** [s.split(sep)] for a separator of one character: one field more than
    there are separators. *)
Fixpoint split_on (sep : ascii) (s : string) : list string :=
  match s with
  | EmptyString => [EmptyString]
  | String c r =>
      if Ascii.eqb c sep then EmptyString :: split_on sep r
      else match split_on sep r with
           | [] => [String c EmptyString]
           | f :: fs => String c f :: fs
           end
  end.

(** [sep.join(fields)]. *)
Fixpoint join (sep : ascii) (fields : list string) : string :=
  match fields with
  | [] => EmptyString
  | [f] => f
  | f :: fs => (f ++ String sep (join sep fs))%string
  end.









Definition has_char (c : ascii) (s : string) : bool :=
  existsb (Ascii.eqb c) (list_ascii_of_string s).

End Text.

Import Text.

(** ** The page (lines 92-222) *)

Module App.

(** Line 95, [first, last = player_name.split(" ")]: [None] stands for
    the [ValueError] of unpacking anything but two fields. *)
Definition split_name (player_name : string) : option (string * string) :=
  match split_on " " player_name with
  | [first; last] => Some (first, last)
  | _ => None
  end.






Definition event_date_desc (a b : ClassifiedEvent) : bool :=
  game_date (source b) <=? game_date (source a).

(** Line 216: the ten most recent plate appearances with an outcome. *)
Definition last_10 (statcast_df : ClassifiedFrame)
  : result (list ClassifiedEvent) :=
  match missing_column (columns statcast_df) ["events"; "game_date"]%string with
  | Some c => KeyError c
  | None =>
      Ok (head 10 (sort_by event_date_desc
                     (filter (fun e => notnull (source e)) (rows statcast_df))))
  end.

(** Lines 206-209, [round(stat_line[cat] * 100)]: [None] stands for the
    [ValueError] of rounding the undefined value to an integer. *)
Definition display_percent (x : pyfloat) : option Z :=
  match fmul x (Fin (inject_Z 100)) with
  | NaN => None
  | Fin q => Some (round_half_even q)
  end.

End App.

Import App.

(** ** Career table ([get_career_stats], lines 57-67) *)

Module Career.

(** [range(a, b)]. *)
Definition py_range (a b : Z) : list Z :=
  map (fun i => a + Z.of_nat i) (seq 0 (Z.to_nat (b - a))).

Section WithProvider.

Context {Row : Type}.

(** [batting_stats(y, qual=0)], the name column of its rows and
    [str.contains(name, case=False)]. *)
Variable batting_stats : Z -> list Row.
Variable name_of : Row -> string.
Variable str_contains : string -> string -> bool.

(** Line 55 and line 63: the rows of a table whose name matches. *)
Definition select_name (name : string) (table : list Row) : list Row :=
  filter (fun r => str_contains name (name_of r)) table.

(** Lines 61-66: the tables kept in [full_data], each row with its
    [Season]. *)
Fixpoint full_data (name : string) (years : list Z) : list (list (Z * Row)) :=
  match years with
  | [] => []
  | y :: rest =>
      match select_name name (batting_stats y) with
      | [] => full_data name rest
      | player_df => map (pair y) player_df :: full_data name rest
      end
  end.

(** [today] is the year of [datetime.date.today()]. *)
Definition get_career_stats (today : Z) (name : string) : list (Z * Row) :=
  List.concat (full_data name (py_range 2015 (today + 1))).

End WithProvider.

End Career.

Import Career.

(** ** Consistency of a stat record *)

(** The derived columns agree with the four hit columns. *)
Definition consistent (s : Stats) : Prop :=
  s_TB s = s_1B s + 2 * s_2B s + 3 * s_3B s + 4 * s_HR s
  /\ s_H s = s_1B s + s_2B s + s_3B s + s_HR s
  /\ 0 <= s_1B s /\ 0 <= s_2B s /\ 0 <= s_3B s /\ 0 <= s_HR s.

(** ** Further sample data *)

Module Cases.

Definition single_event : ClassifiedEvent :=
  classify parse_decimal true single_row "single".

Definition strikeout_row : PlateAppearance :=
  pa 101 "Bot" "BOS" "NYY" (Some "strikeout"%string) NA.

Definition strikeout_event : ClassifiedEvent :=
  classify parse_decimal true strikeout_row "strikeout".

(** A table that lacks the outcome column. *)
Definition no_events_column : RawFrame :=
  {| raw_columns := ["game_date"; "home_team"; "away_team"]%string;
     raw_rows := [single_row] |}.

End Cases.

Import Cases.

(** * Properties *)

(** ** Rounding *)

Lemma round_half_even_nearest (q : Q) :
  nearest_even (Qnum q) (Z.pos (Qden q)) (round_half_even q).
Proof.
  unfold nearest_even, round_half_even.
  set (n := Qnum q). set (d := Z.pos (Qden q)).
  assert (Hd : 0 < d) by (unfold d; lia).
  pose proof (Z.div_mod n d ltac:(lia)) as Hdm.
  pose proof (Z.mod_pos_bound n d Hd) as Hr.
  set (f := n / d) in *. set (r := n mod d) in *.
  destruct (Z.compare_spec (2 * r) d) as [He | Hl | Hg].
  - destruct (Z.even f) eqn:Ev.
    + split; [|intros _; exact Ev].
      replace (n - f * d) with r by lia. lia.
    + assert (Z.even (f + 1) = true).
      { rewrite Z.even_add, Ev. reflexivity. }
      split; [|intros _; assumption].
      replace (n - (f + 1) * d) with (r - d) by lia. lia.
  - replace (n - f * d) with r by lia. split; lia.
  - replace (n - (f + 1) * d) with (r - d) by lia. split; lia.
Qed.

Lemma nearest_even_unique (n d k k' : Z) :
  0 < d -> nearest_even n d k -> nearest_even n d k' -> k = k'.
Proof.
  intros Hd [H1 E1] [H2 E2].
  assert (Hc : k = k' \/ k' = k + 1 \/ k = k' + 1 \/ k' >= k + 2 \/ k >= k' + 2) by lia.
  destruct Hc as [?|[->|[->|[Hc|Hc]]]]; trivial.
  - assert (2 * Z.abs (n - k * d) = d) by lia.
    assert (2 * Z.abs (n - (k + 1) * d) = d) by lia.
    specialize (E1 ltac:(assumption)). specialize (E2 ltac:(assumption)).
    rewrite Z.even_add, E1 in E2. discriminate.
  - assert (2 * Z.abs (n - k' * d) = d) by lia.
    assert (2 * Z.abs (n - (k' + 1) * d) = d) by lia.
    specialize (E1 ltac:(assumption)). specialize (E2 ltac:(assumption)).
    rewrite Z.even_add, E2 in E1. discriminate.
  - exfalso. nia.
  - exfalso. nia.
Qed.

Lemma nearest_even_scale (n d k c : Z) :
  0 < c -> nearest_even (n * c) (d * c) k <-> nearest_even n d k.
Proof.
  intros Hc. unfold nearest_even.
  replace (n * c - k * (d * c)) with ((n - k * d) * c) by ring.
  rewrite Z.abs_mul, (Z.abs_eq c) by lia.
  split; intros [H1 H2]; split.
  - nia.
  - intros E. apply H2. nia.
  - nia.
  - intros E. apply H2. nia.
Qed.

Lemma round_half_even_Qeq (p q : Q) :
  (p == q)%Q -> round_half_even p = round_half_even q.
Proof.
  intros E. unfold Qeq in E.
  apply (nearest_even_unique (Qnum p * Z.pos (Qden q)) (Z.pos (Qden p) * Z.pos (Qden q))).
  - lia.
  - apply nearest_even_scale; [lia | apply round_half_even_nearest].
  - rewrite E, (Z.mul_comm (Z.pos (Qden p))).
    apply nearest_even_scale; [lia | apply round_half_even_nearest].
Qed.

Lemma round_half_even_mono (p q : Q) :
  (p <= q)%Q -> round_half_even p <= round_half_even q.
Proof.
  intros L. unfold Qle in L.
  destruct (round_half_even_nearest p) as [P1 P2].
  destruct (round_half_even_nearest q) as [Q1 Q2].
  set (k1 := round_half_even p) in *. set (k2 := round_half_even q) in *.
  set (n1 := Qnum p) in *. set (d1 := Z.pos (Qden p)) in *.
  set (n2 := Qnum q) in *. set (d2 := Z.pos (Qden q)) in *.
  assert (Hd1 : 0 < d1) by (unfold d1; lia).
  assert (Hd2 : 0 < d2) by (unfold d2; lia).
  destruct (Z_le_gt_dec k1 k2) as [|G]; trivial. exfalso.
  assert (A1 : (2 * k1 - 1) * d1 <= 2 * n1) by lia.
  assert (A2 : 2 * n2 <= (2 * k2 + 1) * d2) by lia.
  assert (B1 : (2 * k1 - 1) * d1 * d2 <= 2 * n1 * d2) by (apply Z.mul_le_mono_nonneg_r; lia).
  assert (B2 : 2 * n2 * d1 <= (2 * k2 + 1) * d2 * d1) by (apply Z.mul_le_mono_nonneg_r; lia).
  assert (B3 : (2 * k1 - 1) * (d1 * d2) <= (2 * k2 + 1) * (d1 * d2)) by lia.
  assert (Hdd : 0 < d1 * d2) by lia.
  assert (K : k1 = k2 + 1) by nia.
  assert (T1 : (2 * k1 - 1) * d1 = 2 * n1) by nia.
  assert (T2 : 2 * n2 = (2 * k2 + 1) * d2) by nia.
  assert (E1 : Z.even k1 = true) by (apply P2; lia).
  assert (E2 : Z.even k2 = true) by (apply Q2; lia).
  rewrite K, Z.even_add, E2 in E1. discriminate.
Qed.


Lemma fin_hundredths_le (a b : Z) (p : positive) :
  a <= b -> fle (Fin (a # p)) (Fin (b # p)).
Proof.
  intros L. unfold fle, Qle. simpl. nia.
Qed.

(** ** Predictor *)

Lemma predict_finite (s v r : Q) :
  predict_next_game_stat (Fin s) (Fin v) (Fin r)
  = Fin (round_half_even (blend_spec s v r * inject_Z 100) # 100).
Proof.
  unfold predict_next_game_stat, pyround, weight, weights, fadd, fmul. simpl.
  f_equal. f_equal. apply round_half_even_Qeq.
  unfold blend_spec. ring.
Qed.


(** C10: the predictor is monotone in its three arguments. *)
Theorem predict_next_game_stat_monotone (s1 v1 r1 s2 v2 r2 : pyfloat) :
  fle s1 s2 -> fle v1 v2 -> fle r1 r2 ->
  fle (predict_next_game_stat s1 v1 r1) (predict_next_game_stat s2 v2 r2).
Proof.
  destruct s1 as [|s1], s2 as [|s2]; try (intros []; fail).
  destruct v1 as [|v1], v2 as [|v2]; try (intros _ []; fail).
  destruct r1 as [|r1], r2 as [|r2]; try (intros _ _ []; fail).
  intros Hs Hv Hr. cbn [fle] in Hs, Hv, Hr.
  rewrite !predict_finite.
  apply fin_hundredths_le, round_half_even_mono.
  apply Qmult_le_compat_r; [|discriminate].
  unfold blend_spec.
  repeat apply Qplus_le_compat;
    (rewrite !(Qmult_comm (_ # _)); apply Qmult_le_compat_r; [assumption | discriminate]).
Qed.

Lemma predict_next_game_stat_monotone_witness :
  fle (Fin 0.10) (Fin 0.30) /\ fle (Fin 0.50) (Fin 0.50) /\ fle (Fin 0) (Fin 0.20)
  /\ fle (predict_next_game_stat (Fin 0.10) (Fin 0.50) (Fin 0))
         (predict_next_game_stat (Fin 0.30) (Fin 0.50) (Fin 0.20)).
Proof.
  assert (A : fle (Fin 0.10) (Fin 0.30)) by (unfold fle, Qle; simpl; lia).
  assert (B : fle (Fin 0.50) (Fin 0.50)) by (unfold fle, Qle; simpl; lia).
  assert (C : fle (Fin 0) (Fin 0.20)) by (unfold fle, Qle; simpl; lia).
  split; [exact A | split; [exact B | split; [exact C |]]].
  exact (predict_next_game_stat_monotone _ _ _ _ _ _ A B C).
Defined.

(** ** Trend evaluator *)

Lemma iloc_last_map {A B : Type} (f : A -> B) (w : nat) (l : list A) :
  iloc_last w (map f l) = map f (iloc_last w l).
Proof.
  unfold iloc_last. rewrite length_map. apply skipn_map.
Qed.

Lemma length_iloc_last {A : Type} (w : nat) (l : list A) :
  List.length (iloc_last w l) = Nat.min w (List.length l).
Proof.
  unfold iloc_last. rewrite length_skipn. lia.
Qed.

Lemma count_true_filter {A : Type} (f : A -> bool) (l : list A) :
  count_true (map f l) = Z.of_nat (List.length (filter f l)).
Proof.
  unfold count_true.
  induction l as [|x l IH]; [reflexivity|].
  cbn [map zsum filter]. rewrite IH.
  destruct (f x); cbn [Z.b2z List.length]; lia.
Qed.

Lemma count_true_le {A : Type} (f g : A -> bool) (l : list A) :
  (forall x, f x = true -> g x = true) ->
  count_true (map f l) <= count_true (map g l).
Proof.
  intros Hfg. unfold count_true.
  induction l as [|x l IH]; [reflexivity|].
  cbn [map zsum].
  specialize (Hfg x).
  destruct (f x), (g x); cbn [Z.b2z];
    solve [lia | discriminate (Hfg eq_refl)].
Qed.

Lemma window_hits_counts (w : positive) (df : list GameStatLine) (c : category) (t : Z) :
  window_hits w df c t = Z.of_nat (hits_spec (Pos.to_nat w) df c t).
Proof.
  unfold window_hits, hits_spec, hit_flags.
  rewrite iloc_last_map. apply count_true_filter.
Qed.

Lemma hit_flags_exact (df : list GameStatLine) (c : category) (t : Z) :
  Forall2 (fun g h => h = true <-> t <= stat c (g_stats g)) df (hit_flags df c t).
Proof.
  unfold hit_flags.
  induction df as [|g df IH]; constructor; [apply Z.leb_le | exact IH].
Qed.

Lemma rate_cell_no_tie :
  Forall (fun w : positive =>
            forall n : Z, exists p : Z,
              rate_cell w n
              = (show_Z n ++ "/" ++ show_Z (Z.pos w) ++ " (" ++ show_Z p ++ "%)")%string
              /\ 2 * Z.abs (100 * n - p * Z.pos w) < Z.pos w)
         [10; 5; 3]%positive.
Proof.
  repeat constructor; intros n;
    match goal with
    | |- exists p, rate_cell ?w _ = _ /\ _ =>
        exists (round_half_even ((n # w) * inject_Z 100));
        (split; [reflexivity|]);
        destruct (round_half_even_nearest ((n # w) * inject_Z 100)) as [Hn _];
        cbn [Qnum Qden Qmult inject_Z] in Hn;
        rewrite Pos.mul_1_r in Hn; lia
    end.
Qed.

Lemma rate_cell_nearest (w : positive) (n : Z) :
  exists p : Z,
    rate_cell w n
    = (show_Z n ++ "/" ++ show_Z (Z.pos w) ++ " (" ++ show_Z p ++ "%)")%string
    /\ 2 * Z.abs (100 * n - p * Z.pos w) <= Z.pos w.
Proof.
  exists (round_half_even ((n # w) * inject_Z 100)).
  split; [reflexivity|].
  destruct (round_half_even_nearest ((n # w) * inject_Z 100)) as [Hn _].
  cbn [Qnum Qden Qmult inject_Z] in Hn.
  rewrite Pos.mul_1_r in Hn.
  replace (100 * n) with (n * 100) by ring. exact Hn.
Qed.

(** C1: a game is a hit exactly when its value reaches the threshold;
    each window counts the hits among its last games, over the fixed
    denominator, with the percentage rounded to the nearest integer; the
    HR example gives 2/3 (67%) and 3/5 (60%). *)
Theorem calculate_hit_rates_windows (df : list GameStatLine) (c : category) :
  (forall t, Forall2 (fun g h => h = true <-> t <= stat c (g_stats g))
                     df (hit_flags df c t))
  /\ (forall w t, window_hits w df c t = Z.of_nat (hits_spec (Pos.to_nat w) df c t))
  /\ (forall w, List.length (iloc_last w df) = Nat.min w (List.length df))
  /\ (forall w n, exists p : Z,
         rate_cell w n
         = (show_Z n ++ "/" ++ show_Z (Z.pos w) ++ " (" ++ show_Z p ++ "%)")%string
         /\ 2 * Z.abs (100 * n - p * Z.pos w) <= Z.pos w)
  /\ Forall (fun w : positive =>
               forall n : Z, exists p : Z,
                 rate_cell w n
                 = (show_Z n ++ "/" ++ show_Z (Z.pos w) ++ " (" ++ show_Z p ++ "%)")%string
                 /\ 2 * Z.abs (100 * n - p * Z.pos w) < Z.pos w)
            [10; 5; 3]%positive
  /\ (forall ts,
         calculate_hit_rates df c ts
         = map (fun t =>
                  {| Trend := (category_name c ++ " ≥ " ++ show_Z t)%string;
                     Last_10 := rate_cell 10 (Z.of_nat (hits_spec 10 df c t));
                     Last_5 := rate_cell 5 (Z.of_nat (hits_spec 5 df c t));
                     Last_3 := rate_cell 3 (Z.of_nat (hits_spec 3 df c t)) |})
               ts)
  /\ hit_flags five_games Cat_HR 1 = [false; true; false; true; true]
  /\ calculate_hit_rates five_games Cat_HR [1]
     = [ {| Trend := "HR ≥ 1"; Last_10 := "3/10 (30%)";
            Last_5 := "3/5 (60%)"; Last_3 := "2/3 (67%)" |} ].
Proof.
  split; [intros t; apply hit_flags_exact|].
  split; [intros w t; apply window_hits_counts|].
  split; [intros w; apply length_iloc_last|].
  split; [intros w n; apply rate_cell_nearest|].
  split; [apply rate_cell_no_tie|].
  split; [|split; reflexivity].
  intros ts. unfold calculate_hit_rates.
  apply map_ext. intros t.
  rewrite !window_hits_counts. reflexivity.
Qed.

(** C9: the hit count of every window is antitone in the threshold. *)
Theorem window_hits_antitone (w : positive) (df : list GameStatLine)
  (c : category) (t1 t2 : Z) :
  t1 <= t2 -> window_hits w df c t2 <= window_hits w df c t1.
Proof.
  intros Ht. unfold window_hits, hit_flags.
  rewrite !iloc_last_map.
  apply count_true_le. intros g Hg.
  apply Z.leb_le. apply Z.leb_le in Hg. lia.
Qed.

Lemma window_hits_antitone_witness :
  1 <= 2
  /\ window_hits 10 five_games Cat_HR 2 <= window_hits 10 five_games Cat_HR 1
  /\ window_hits 5 five_games Cat_HR 2 <= window_hits 5 five_games Cat_HR 1
  /\ window_hits 3 five_games Cat_HR 2 <= window_hits 3 five_games Cat_HR 1.
Proof.
  assert (H12 : 1 <= 2) by lia.
  split; [exact H12|].
  split; [exact (window_hits_antitone 10 five_games Cat_HR 1 2 H12)|].
  split; [exact (window_hits_antitone 5 five_games Cat_HR 1 2 H12)|].
  exact (window_hits_antitone 3 five_games Cat_HR 1 2 H12).
Defined.

Lemma count_true_all (l : list bool) :
  Forall (fun h => h = true) l -> count_true l = Z.of_nat (List.length l).
Proof.
  unfold count_true.
  induction 1 as [|h l Hh _ IH]; [reflexivity|].
  cbn [map zsum List.length]. rewrite IH, Hh. cbn [Z.b2z]. lia.
Qed.

Lemma Forall_skipn {A : Type} (P : A -> Prop) (n : nat) (l : list A) :
  Forall P l -> Forall P (skipn n l).
Proof.
  intros H. rewrite <- (firstn_skipn n l) in H.
  apply Forall_app in H. apply H.
Qed.

Lemma rate_cell_full (w : positive) :
  rate_cell w (Z.pos w)
  = (show_Z (Z.pos w) ++ "/" ++ show_Z (Z.pos w) ++ " (100%)")%string.
Proof.
  unfold rate_cell, rate_percent, fmul, format_0f.
  rewrite (round_half_even_Qeq _ (inject_Z 100)); [reflexivity|].
  unfold Qeq. cbn [Qnum Qden Qmult inject_Z]. lia.
Qed.

Lemma hit_flags_zero (df : list GameStatLine) (c : category) :
  Forall (fun g => 0 <= stat c (g_stats g)) df ->
  Forall (fun h => h = true) (hit_flags df c 0).
Proof.
  unfold hit_flags. intros H.
  induction H as [|g df Hg _ IH]; constructor; [apply Z.leb_le, Hg | exact IH].
Qed.

Lemma window_hits_zero (w : positive) (df : list GameStatLine) (c : category) :
  Forall (fun g => 0 <= stat c (g_stats g)) df ->
  window_hits w df c 0 = Z.of_nat (Nat.min (Pos.to_nat w) (List.length df)).
Proof.
  intros H. unfold window_hits.
  rewrite count_true_all.
  - rewrite length_iloc_last. unfold hit_flags. rewrite length_map. reflexivity.
  - apply Forall_skipn, hit_flags_zero, H.
Qed.

(** C7, amended: with threshold 0 every game is a hit, a window of size
    [w] counts [min w n] hits over [n] games, and its percentage is 100
    when at least [w] games are available. *)
Theorem zero_threshold_windows (df : list GameStatLine) (c : category) :
  Forall (fun g => 0 <= stat c (g_stats g)) df ->
  Forall (fun h => h = true) (hit_flags df c 0)
  /\ (forall w, window_hits w df c 0
                = Z.of_nat (Nat.min (Pos.to_nat w) (List.length df)))
  /\ (forall w, (Pos.to_nat w <= List.length df)%nat ->
                rate_cell w (window_hits w df c 0)
                = (show_Z (Z.pos w) ++ "/" ++ show_Z (Z.pos w) ++ " (100%)")%string)
  /\ ((10 <= List.length df)%nat ->
      calculate_hit_rates df c [0]
      = [ {| Trend := (category_name c ++ " ≥ 0")%string;
             Last_10 := "10/10 (100%)"; Last_5 := "5/5 (100%)";
             Last_3 := "3/3 (100%)" |} ]).
Proof.
  intros H.
  assert (Hfull : forall w, (Pos.to_nat w <= List.length df)%nat ->
            rate_cell w (window_hits w df c 0)
            = (show_Z (Z.pos w) ++ "/" ++ show_Z (Z.pos w) ++ " (100%)")%string).
  { intros w Hw. rewrite (window_hits_zero w df c H).
    rewrite Nat.min_l by exact Hw.
    rewrite positive_nat_Z. apply rate_cell_full. }
  split; [apply hit_flags_zero, H|].
  split; [intros w; apply window_hits_zero, H|].
  split; [exact Hfull|].
  intros Hlen. unfold calculate_hit_rates. cbn [map].
  rewrite (Hfull 10%positive), (Hfull 5%positive), (Hfull 3%positive)
    by (rewrite ?Pos2Nat.inj_xI, ?Pos2Nat.inj_xO; cbn; lia).
  reflexivity.
Qed.

Lemma zero_threshold_windows_witness :
  Forall (fun g => 0 <= stat Cat_HR (g_stats g)) ten_games
  /\ (10 <= List.length ten_games)%nat
  /\ calculate_hit_rates ten_games Cat_HR [0]
     = [ {| Trend := "HR ≥ 0"; Last_10 := "10/10 (100%)";
            Last_5 := "5/5 (100%)"; Last_3 := "3/3 (100%)" |} ].
Proof.
  assert (Hnn : Forall (fun g => 0 <= stat Cat_HR (g_stats g)) ten_games).
  { repeat constructor; cbn; lia. }
  assert (Hlen : (10 <= List.length ten_games)%nat) by (cbn; lia).
  split; [exact Hnn|]. split; [exact Hlen|].
  exact (proj2 (proj2 (proj2 (zero_threshold_windows ten_games Cat_HR Hnn))) Hlen).
Defined.

(** With five games on record and threshold 0 every game is a hit, yet
    the last-10 window reports 5/10 (50%). *)
Lemma zero_threshold_short_history :
  Forall (fun g => 0 <= stat Cat_HR (g_stats g)) five_games
  /\ hit_flags five_games Cat_HR 0 = [true; true; true; true; true]
  /\ map Last_10 (calculate_hit_rates five_games Cat_HR [0]) = ["5/10 (50%)"%string]
  /\ format_0f (rate_percent 10 (window_hits 10 five_games Cat_HR 0)) <> "100"%string.
Proof.
  split; [repeat constructor; cbn; lia|].
  split; [reflexivity|]. split; [reflexivity|].
  vm_compute. discriminate.
Qed.

(** ** Event classifier *)

Lemma flag_cases (label e : string) :
  (flag label e = 1 /\ e = label) \/ (flag label e = 0 /\ e <> label).
Proof.
  unfold flag. destruct (String.eqb_spec e label); auto.
Qed.

(** The sixteen combinations of the four flags of an outcome. *)
Ltac split_flags e :=
  let E1 := fresh "E1" in
  let E2 := fresh "E2" in
  let E3 := fresh "E3" in
  let E4 := fresh "E4" in
  destruct (flag_cases "single" e) as [[-> E1] | [-> E1]],
           (flag_cases "double" e) as [[-> E2] | [-> E2]],
           (flag_cases "triple" e) as [[-> E3] | [-> E3]],
           (flag_cases "home_run" e) as [[-> E4] | [-> E4]].

Section ClassifierFacts.

Variable to_numeric : string -> option Q.

Lemma In_classify_rows (b : bool) (rs : list PlateAppearance) (c : ClassifiedEvent) :
  In c (classify_rows to_numeric b rs) <->
  exists r e, In r rs /\ events r = Some e /\ c = classify to_numeric b r e.
Proof.
  induction rs as [|r rs IH]; cbn [classify_rows].
  - split; [intros [] | intros (r & e & [] & _)].
  - cbn [In]. destruct (events r) as [e|] eqn:Ev.
    + cbn [In]. rewrite IH. split.
      * intros [<- | (r' & e' & Hin & He & ->)].
        -- exists r, e. auto.
        -- exists r', e'. auto.
      * intros (r' & e' & [-> | Hin] & He & ->).
        -- left. congruence.
        -- right. exists r', e'. auto.
    + rewrite IH. split.
      * intros (r' & e' & Hin & He & ->). exists r', e'. auto.
      * intros (r' & e' & [-> | Hin] & He & ->); [congruence|].
        exists r', e'. auto.
Qed.


Lemma rows_get_statcast_data (df : RawFrame) (c : ClassifiedEvent) :
  In c (rows (get_statcast_data to_numeric df)) ->
  exists r e,
    In r (raw_rows df) /\ events r = Some e
    /\ c = classify to_numeric (has_column "rbi" (raw_columns df)) r e.
Proof.
  unfold get_statcast_data.
  destruct (frame_empty _ _ || negb _); cbn [rows].
  - intros [].
  - apply In_classify_rows.
Qed.

(** C3: on every classified event each flag is 0 or 1, set by equality of
    the outcome with its label, at most one flag is 1, and TB and H are
    the weighted and the plain sum of the flags. *)
Theorem classified_flags_exclusive (df : RawFrame) (c : ClassifiedEvent) :
  In c (rows (get_statcast_data to_numeric df)) ->
  exists e : string,
    events (source c) = Some e
    /\ (s_1B (stats c) = 1 <-> e = "single"%string)
    /\ (s_2B (stats c) = 1 <-> e = "double"%string)
    /\ (s_3B (stats c) = 1 <-> e = "triple"%string)
    /\ (s_HR (stats c) = 1 <-> e = "home_run"%string)
    /\ (s_1B (stats c) = 0 \/ s_1B (stats c) = 1)
    /\ (s_2B (stats c) = 0 \/ s_2B (stats c) = 1)
    /\ (s_3B (stats c) = 0 \/ s_3B (stats c) = 1)
    /\ (s_HR (stats c) = 0 \/ s_HR (stats c) = 1)
    /\ s_1B (stats c) + s_2B (stats c) + s_3B (stats c) + s_HR (stats c) <= 1
    /\ s_TB (stats c)
       = 1 * s_1B (stats c) + 2 * s_2B (stats c) + 3 * s_3B (stats c)
         + 4 * s_HR (stats c)
    /\ s_H (stats c)
       = s_1B (stats c) + s_2B (stats c) + s_3B (stats c) + s_HR (stats c).
Proof.
  intros Hin.
  destruct (rows_get_statcast_data df c Hin) as (r & e & _ & He & ->).
  exists e. cbn [classify source stats s_1B s_2B s_3B s_HR s_TB s_H].
  split; [exact He|].
  split_flags e;
    try (exfalso; congruence);
    repeat split; intros; auto; try lia; try congruence; try discriminate.
Qed.



End ClassifierFacts.

(** *** Columns of the result *)

Lemma has_column_In (c : string) (cols : list string) :
  has_column c cols = true <-> In c cols.
Proof.
  unfold has_column. rewrite existsb_exists. split.
  - intros (x & Hx & E). apply String.eqb_eq in E. subst. exact Hx.
  - intros H. exists c. split; [exact H | apply String.eqb_refl].
Qed.

Lemma In_assign_columns (c : string) (new cols : list string) :
  In c (assign_columns cols new) <-> In c cols \/ In c new.
Proof.
  unfold assign_columns. revert cols.
  induction new as [|x new IH]; intros cols; cbn [fold_left In].
  - tauto.
  - rewrite IH. destruct (has_column x cols) eqn:E.
    + apply has_column_In in E. split; [tauto|].
      intros [H | [<- | H]]; auto.
    + rewrite in_app_iff. cbn [In]. tauto.
Qed.

Section DeclaredColumns.

Variable to_numeric : string -> option Q.

(** The nine columns of the empty result are columns of every result, as
    long as the provider's table has its date column. *)
Lemma declared_columns_present (df : RawFrame) :
  has_column "game_date" (raw_columns df) = true ->
  Forall (fun c => has_column c (columns (get_statcast_data to_numeric df)) = true)
         empty_columns.
Proof.
  intros Hd. unfold get_statcast_data.
  destruct (frame_empty _ _ || negb _); cbn [columns].
  - repeat constructor.
  - apply Forall_forall. intros c Hc.
    apply has_column_In, In_assign_columns.
    cbn [empty_columns In] in Hc.
    destruct Hc as [<- | Hc]; [left; apply has_column_In, Hd|].
    right. cbn [added_columns In]. tauto.
Qed.

Lemma missing_column_none (cols need : list string) :
  Forall (fun c => has_column c cols = true) need ->
  missing_column cols need = None.
Proof.
  induction 1 as [|c need Hc _ IH]; cbn [missing_column]; [reflexivity|].
  rewrite Hc. exact IH.
Qed.

(** On the classifier's result the aggregation raises no [KeyError]. *)
Lemma grouped_get_statcast_data (df : RawFrame) :
  has_column "game_date" (raw_columns df) = true ->
  grouped (get_statcast_data to_numeric df)
  = Ok (groupby_sum (rows (get_statcast_data to_numeric df))).
Proof.
  intros Hd. unfold grouped.
  rewrite missing_column_none; [reflexivity|].
  pose proof (declared_columns_present df Hd) as H.
  rewrite Forall_forall in *. intros c Hc. apply H.
  cbn [group_columns summed_columns app In] in Hc.
  cbn [empty_columns In]. tauto.
Qed.

End DeclaredColumns.

(** *** Sample runs *)

Lemma classified_flags_exclusive_witness :
  In homer_event (rows (get_statcast_data parse_decimal single_and_homer))
  /\ exists e : string,
       events (source homer_event) = Some e
       /\ (s_1B (stats homer_event) = 1 <-> e = "single"%string)
       /\ (s_2B (stats homer_event) = 1 <-> e = "double"%string)
       /\ (s_3B (stats homer_event) = 1 <-> e = "triple"%string)
       /\ (s_HR (stats homer_event) = 1 <-> e = "home_run"%string)
       /\ (s_1B (stats homer_event) = 0 \/ s_1B (stats homer_event) = 1)
       /\ (s_2B (stats homer_event) = 0 \/ s_2B (stats homer_event) = 1)
       /\ (s_3B (stats homer_event) = 0 \/ s_3B (stats homer_event) = 1)
       /\ (s_HR (stats homer_event) = 0 \/ s_HR (stats homer_event) = 1)
       /\ s_1B (stats homer_event) + s_2B (stats homer_event) + s_3B (stats homer_event) + s_HR (stats homer_event) <= 1
       /\ s_TB (stats homer_event)
          = 1 * s_1B (stats homer_event) + 2 * s_2B (stats homer_event) + 3 * s_3B (stats homer_event)
            + 4 * s_HR (stats homer_event)
       /\ s_H (stats homer_event)
          = s_1B (stats homer_event) + s_2B (stats homer_event) + s_3B (stats homer_event) + s_HR (stats homer_event).
Proof.
  assert (Hin : In homer_event (rows (get_statcast_data parse_decimal single_and_homer))).
  { right. left. reflexivity. }
  split; [exact Hin|].
  exact (classified_flags_exclusive parse_decimal single_and_homer homer_event Hin).
Defined.



(** ** Aggregator *)

Section SortBy.

Context {A : Type} (leb : A -> A -> bool).

Lemma insert_by_perm (x : A) (l : list A) :
  Permutation (insert_by leb x l) (x :: l).
Proof.
  induction l as [|y l IH]; cbn [insert_by]; [reflexivity|].
  destruct (leb x y); [reflexivity|].
  rewrite IH. apply perm_swap.
Qed.

Lemma sort_by_perm (l : list A) : Permutation (sort_by leb l) l.
Proof.
  induction l as [|x l IH]; [reflexivity|].
  unfold sort_by in *. cbn [fold_right].
  rewrite insert_by_perm. apply perm_skip, IH.
Qed.

Hypothesis leb_total : forall a b, leb a b = true \/ leb b a = true.

Lemma insert_by_sorted (x : A) (l : list A) :
  Sorted (fun a b => leb a b = true) l ->
  Sorted (fun a b => leb a b = true) (insert_by leb x l).
Proof.
  induction 1 as [|y l Hs IH Hhd]; cbn [insert_by].
  - repeat constructor.
  - destruct (leb x y) eqn:Exy.
    + repeat constructor; assumption.
    + constructor; [exact IH|].
      assert (Hyx : leb y x = true).
      { destruct (leb_total x y) as [E|E]; [congruence | exact E]. }
      destruct Hhd as [|z l Hyz]; cbn [insert_by].
      * repeat constructor. exact Hyx.
      * destruct (leb x z); constructor; assumption.
Qed.

Lemma sort_by_sorted (l : list A) :
  Sorted (fun a b => leb a b = true) (sort_by leb l).
Proof.
  induction l as [|x l IH]; [constructor|].
  unfold sort_by in *. cbn [fold_right]. apply insert_by_sorted, IH.
Qed.

End SortBy.






Lemma key_leb_total (a b : key) : key_leb a b = true \/ key_leb b a = true.
Proof.
  unfold key_leb.
  destruct (Z.ltb_spec (fst a) (fst b)); [left; reflexivity|].
  destruct (Z.ltb_spec (fst b) (fst a)); [right; reflexivity|].
  assert (E : fst a = fst b) by lia.
  rewrite E, Z.eqb_refl. cbn [orb andb]. apply String.leb_total.
Qed.


Lemma key_eqb_eq (a b : key) : key_eqb a b = true <-> a = b.
Proof.
  unfold key_eqb. destruct a as [d o], b as [d' o']. cbn [fst snd].
  rewrite andb_true_iff, Z.eqb_eq, String.eqb_eq.
  split; [intros [-> ->]; reflexivity | intros E; inversion E; auto].
Qed.

Lemma line_key_group_line (rs : list ClassifiedEvent) (k : key) :
  line_key (group_line rs k) = k.
Proof. destruct k. reflexivity. Qed.

Lemma keys_groupby_sum (rs : list ClassifiedEvent) :
  map line_key (groupby_sum rs)
  = sort_by key_leb (nodup key_eq_dec (map key_of rs)).
Proof.
  unfold groupby_sum. rewrite map_map.
  rewrite (map_ext _ (fun k => k)); [apply map_id|].
  intros k. apply line_key_group_line.
Qed.



Lemma sort_values_perm (asc : bool) (l : list GameStatLine) :
  Permutation (sort_values asc l) l.
Proof. apply sort_by_perm. Qed.


(** *** The algebra of stat records *)

Lemma stats_add_comm (a b : Stats) : stats_add a b = stats_add b a.
Proof. unfold stats_add. f_equal; lia. Qed.

Lemma stats_add_assoc (a b c : Stats) :
  stats_add a (stats_add b c) = stats_add (stats_add a b) c.
Proof. unfold stats_add. cbn. f_equal; lia. Qed.

Lemma stats_add_zero_l (a : Stats) : stats_add stats_zero a = a.
Proof. destruct a. reflexivity. Qed.

Lemma stats_add_zero_r (a : Stats) : stats_add a stats_zero = a.
Proof. rewrite stats_add_comm. apply stats_add_zero_l. Qed.

Lemma stat_stats_sum (c : category) (l : list Stats) :
  stat c (stats_sum l) = zsum (map (stat c) l).
Proof.
  induction l as [|s l IH]; [destruct c; reflexivity|].
  cbn [stats_sum fold_right map zsum]. fold (stats_sum l).
  rewrite <- IH. destruct c; reflexivity.
Qed.

Lemma rbi_stats_sum (l : list Stats) :
  s_RBI (stats_sum l) = zsum (map s_RBI l).
Proof.
  induction l as [|s l IH]; [reflexivity|].
  cbn [stats_sum fold_right map zsum]. fold (stats_sum l).
  rewrite <- IH. reflexivity.
Qed.

Lemma stats_sum_pointwise_add {K : Type} (f g : K -> Stats) (ks : list K) :
  stats_sum (map (fun k => stats_add (f k) (g k)) ks)
  = stats_add (stats_sum (map f ks)) (stats_sum (map g ks)).
Proof.
  induction ks as [|k ks IH]; [reflexivity|].
  cbn [map stats_sum fold_right].
  fold (stats_sum (map (fun k => stats_add (f k) (g k)) ks)).
  fold (stats_sum (map f ks)). fold (stats_sum (map g ks)).
  rewrite IH.
  rewrite <- !stats_add_assoc. f_equal.
  rewrite !stats_add_assoc. f_equal. apply stats_add_comm.
Qed.

Lemma stats_sum_zeros {K : Type} (f : K -> Stats) (ks : list K) :
  (forall k, In k ks -> f k = stats_zero) ->
  stats_sum (map f ks) = stats_zero.
Proof.
  induction ks as [|k ks IH]; intros Hz; [reflexivity|].
  cbn [map stats_sum fold_right]. fold (stats_sum (map f ks)).
  rewrite IH, Hz, ?stats_add_zero_l; auto using in_eq, in_cons.
Qed.

Lemma stats_sum_single_key (s : Stats) (k0 : key) (ks : list key) :
  NoDup ks -> In k0 ks ->
  stats_sum (map (fun k => if key_eqb k0 k then s else stats_zero) ks) = s.
Proof.
  induction 1 as [|k ks Hnin Hnd IH]; intros Hin; [destruct Hin|].
  cbn [map stats_sum fold_right].
  fold (stats_sum (map (fun k => if key_eqb k0 k then s else stats_zero) ks)).
  destruct (key_eqb k0 k) eqn:E.
  - apply key_eqb_eq in E. subst k.
    rewrite stats_sum_zeros; [apply stats_add_zero_r|].
    intros k Hk. destruct (key_eqb k0 k) eqn:E'; [|reflexivity].
    apply key_eqb_eq in E'. subst k. contradiction.
  - destruct Hin as [<- | Hin].
    + assert (key_eqb k k = true) by (apply key_eqb_eq; reflexivity). congruence.
    + rewrite IH by exact Hin. apply stats_add_zero_l.
Qed.

Lemma group_sums_partition (ks : list key) (rs : list ClassifiedEvent) :
  NoDup ks ->
  (forall c, In c rs -> In (key_of c) ks) ->
  stats_sum (map (fun k => stats_sum (map stats (group_rows k rs))) ks)
  = stats_sum (map stats rs).
Proof.
  intros Hnd. induction rs as [|c rs IH]; intros Hcov.
  - apply stats_sum_zeros. reflexivity.
  - cbn [map stats_sum fold_right]. fold (stats_sum (map stats rs)).
    rewrite <- IH by (intros c' Hc'; apply Hcov; right; exact Hc').
    rewrite <- (stats_sum_single_key (stats c) (key_of c) ks Hnd)
      at 1 by (apply Hcov; left; reflexivity).
    rewrite <- stats_sum_pointwise_add.
    f_equal. apply map_ext. intros k.
    unfold group_rows. cbn [filter].
    destruct (key_eqb (key_of c) k); [reflexivity|].
    symmetry. apply stats_add_zero_l.
Qed.

Lemma groupby_sum_keys_nodup (rs : list ClassifiedEvent) :
  NoDup (map line_key (groupby_sum rs)).
Proof.
  rewrite keys_groupby_sum.
  apply (Permutation_NoDup (l := nodup key_eq_dec (map key_of rs))).
  - symmetry. apply sort_by_perm.
  - apply NoDup_nodup.
Qed.

Lemma groupby_sum_covers (rs : list ClassifiedEvent) (c : ClassifiedEvent) :
  In c rs -> In (key_of c) (map line_key (groupby_sum rs)).
Proof.
  intros Hin. rewrite keys_groupby_sum.
  apply (Permutation_in (l := nodup key_eq_dec (map key_of rs))).
  - symmetry. apply sort_by_perm.
  - apply nodup_In, in_map, Hin.
Qed.

Lemma groupby_sum_total (rs : list ClassifiedEvent) :
  stats_sum (map g_stats (groupby_sum rs)) = stats_sum (map stats rs).
Proof.
  unfold groupby_sum. rewrite map_map. cbn [group_line g_stats].
  pose proof (groupby_sum_keys_nodup rs) as Hnd.
  rewrite keys_groupby_sum in Hnd.
  apply group_sums_partition; [exact Hnd|].
  intros c Hc. rewrite <- keys_groupby_sum. apply groupby_sum_covers, Hc.
Qed.

Lemma groupby_sum_lines (rs : list ClassifiedEvent) :
  Forall (fun g =>
            group_rows (line_key g) rs <> []
            /\ (forall c, stat c (g_stats g)
                          = zsum (map (fun e => stat c (stats e))
                                      (group_rows (line_key g) rs)))
            /\ s_RBI (g_stats g)
               = zsum (map (fun e => s_RBI (stats e))
                           (group_rows (line_key g) rs)))
         (groupby_sum rs).
Proof.
  apply Forall_forall. intros g Hg.
  unfold groupby_sum in Hg. apply in_map_iff in Hg.
  destruct Hg as (k & <- & Hk).
  rewrite line_key_group_line. cbn [group_line g_stats].
  split; [|split].
  - apply (Permutation_in (l' := nodup key_eq_dec (map key_of rs))) in Hk;
      [|apply sort_by_perm].
    apply nodup_In, in_map_iff in Hk. destruct Hk as (c & Hkc & Hc).
    intros Hnil.
    assert (Hin : In c (group_rows k rs)).
    { unfold group_rows. apply filter_In. split; [exact Hc|].
      apply key_eqb_eq, Hkc. }
    rewrite Hnil in Hin. destruct Hin.
  - intros c. rewrite stat_stats_sum, map_map. reflexivity.
  - rewrite rbi_stats_sum, map_map. reflexivity.
Qed.

(** *** The most recent games *)




Lemma last_games_incl (k : nat) (l : list GameStatLine) (g : GameStatLine) :
  In g (last_games k l) -> In g l.
Proof.
  intros H. unfold last_games, head in H.
  apply (Permutation_in _ (sort_values_perm true _)) in H.
  assert (H' : In g (firstn k (sort_values false l) ++ skipn k (sort_values false l)))
    by (apply in_or_app; left; exact H).
  rewrite firstn_skipn in H'. clear H. rename H' into H.
  apply (Permutation_in _ (sort_values_perm false l)) in H. exact H.
Qed.


(** *** Counts are never negative *)

Lemma classify_stat_nonneg (to_numeric : string -> option Q) (b : bool)
  (r : PlateAppearance) (e : string) (c : category) :
  0 <= stat c (stats (classify to_numeric b r e)).
Proof.
  cbn [classify stats].
  split_flags e; destruct c; cbn; lia.
Qed.

Lemma zsum_nonneg (l : list Z) : Forall (fun z => 0 <= z) l -> 0 <= zsum l.
Proof.
  induction 1 as [|z l Hz _ IH]; cbn [zsum]; lia.
Qed.

Lemma last_games_groupby_nonneg (rs : list ClassifiedEvent) (k : nat) (c : category) :
  Forall (fun e => 0 <= stat c (stats e)) rs ->
  Forall (fun g => 0 <= stat c (g_stats g)) (last_games k (groupby_sum rs)).
Proof.
  intros Hrs. apply Forall_forall. intros g Hg.
  apply last_games_incl in Hg.
  pose proof (groupby_sum_lines rs) as Hl.
  rewrite Forall_forall in Hl. destruct (Hl g Hg) as (_ & Hsum & _).
  rewrite Hsum. apply zsum_nonneg.
  apply Forall_map. unfold group_rows.
  rewrite Forall_forall in *. intros e He.
  apply filter_In in He. apply Hrs, He.
Qed.

Lemma game_stats_nonneg (to_numeric : string -> option Q) (df : RawFrame)
  (l : list GameStatLine) (c : category) :
  game_stats (get_statcast_data to_numeric df) = Ok l ->
  Forall (fun g => 0 <= stat c (g_stats g)) l.
Proof.
  unfold game_stats, grouped.
  destruct (missing_column _ _); [discriminate|].
  intros E. injection E as <-.
  apply last_games_groupby_nonneg.
  apply Forall_forall. intros e He.
  apply rows_get_statcast_data in He.
  destruct He as (r & ev & _ & _ & ->).
  apply classify_stat_nonneg.
Qed.

(** ** The predicted stat line *)

(** C5: an undefined recent average is not replaced by 0: the predictor
    returns the undefined value.  With an opponent filter that matches
    no game, the filtered average is 0 by the guard of line 200 while the
    recent average is the mean of no game, and every predicted value is
    undefined. *)
Theorem stat_line_undefined_without_games :
  (forall s v : pyfloat, predict_next_game_stat s v NaN = NaN)
  /\ (forall c cols, vs_team_avg c {| columns := cols; rows := [] |} = Fin 0)
  /\ (forall c, recent_avg c [] = NaN)
  /\ rows (df_filtered contains_literal "sea"
                       (get_statcast_data parse_decimal two_days)) = []
  /\ stat_line contains_literal "sea" (get_statcast_data parse_decimal two_days)
     = Ok [(Cat_1B, NaN); (Cat_2B, NaN); (Cat_3B, NaN); (Cat_HR, NaN);
           (Cat_TB, NaN)].
Proof.
  split; [intros [|s] [|v]; reflexivity|].
  split; [reflexivity|].
  split; [reflexivity|].
  split; reflexivity.
Qed.

(** * Further properties *)

(** ** Text *)

Lemma split_on_nonempty (sep : ascii) (s : string) : split_on sep s <> [].
Proof.
  destruct s as [|c r]; cbn [split_on]; [discriminate|].
  destruct (Ascii.eqb c sep); [discriminate|].
  destruct (split_on sep r); discriminate.
Qed.

Lemma has_char_cons (sep c : ascii) (s : string) :
  has_char sep (String c s) = Ascii.eqb sep c || has_char sep s.
Proof. reflexivity. Qed.

Lemma join_cons (sep : ascii) (f : string) (fs : list string) :
  fs <> [] -> join sep (f :: fs) = (f ++ String sep (join sep fs))%string.
Proof. destruct fs; [congruence | reflexivity]. Qed.

(** Joining the fields of a split gives the text back. *)
Lemma join_split_on (sep : ascii) (s : string) : join sep (split_on sep s) = s.
Proof.
  induction s as [|c r IH]; [reflexivity|].
  cbn [split_on]. destruct (Ascii.eqb_spec c sep) as [-> | Hne].
  - rewrite join_cons by apply split_on_nonempty. rewrite IH. reflexivity.
  - pose proof (split_on_nonempty sep r) as Hn.
    destruct (split_on sep r) as [|f fs]; [congruence|].
    destruct fs as [|g fs].
    + cbn [join] in *. congruence.
    + rewrite join_cons in * by discriminate.
      cbn [append]. congruence.
Qed.

Lemma split_on_fields (sep : ascii) (s : string) :
  Forall (fun f => has_char sep f = false) (split_on sep s).
Proof.
  induction s as [|c r IH]; [repeat constructor|].
  cbn [split_on]. destruct (Ascii.eqb_spec c sep) as [-> | Hne].
  - constructor; [reflexivity | exact IH].
  - destruct (split_on sep r) as [|f fs]; [repeat constructor|].
    + rewrite has_char_cons. cbn [has_char list_ascii_of_string existsb].
      destruct (Ascii.eqb_spec sep c); [congruence | reflexivity].
    + inversion IH as [|? ? Hf Hfs]; subst.
      constructor; [|exact Hfs].
      rewrite has_char_cons, Hf.
      destruct (Ascii.eqb_spec sep c); [congruence | reflexivity].
Qed.

Lemma split_on_plain (sep : ascii) (s : string) :
  has_char sep s = false -> split_on sep s = [s].
Proof.
  induction s as [|c r IH]; [reflexivity|].
  rewrite has_char_cons. intros H. apply orb_false_iff in H. destruct H as [Hc Hr].
  cbn [split_on]. rewrite Ascii.eqb_sym, Hc, (IH Hr). reflexivity.
Qed.

Lemma split_on_app (sep : ascii) (f rest : string) :
  has_char sep f = false ->
  split_on sep (f ++ String sep rest) = f :: split_on sep rest.
Proof.
  induction f as [|c r IH]; intros H.
  - cbn [append split_on]. rewrite Ascii.eqb_refl. reflexivity.
  - rewrite has_char_cons in H. apply orb_false_iff in H. destruct H as [Hc Hr].
    cbn [append split_on]. rewrite Ascii.eqb_sym, Hc, (IH Hr). reflexivity.
Qed.

(** Splitting a join of fields without separator gives the fields back. *)
Lemma split_on_join (sep : ascii) (fs : list string) :
  fs <> [] ->
  Forall (fun f => has_char sep f = false) fs ->
  split_on sep (join sep fs) = fs.
Proof.
  induction fs as [|f fs IH]; [congruence|].
  intros _ Hall. inversion Hall as [|? ? Hf Hfs]; subst.
  destruct fs as [|g fs].
  - cbn [join]. apply split_on_plain, Hf.
  - rewrite join_cons by discriminate.
    rewrite split_on_app by exact Hf.
    rewrite IH; [reflexivity | discriminate | exact Hfs].
Qed.

(** ** The page *)

(** X1: a player name is accepted exactly when it is two words around
    one blank. *)
Theorem split_name_two_words (player_name first last : string) :
  split_name player_name = Some (first, last)
  <-> player_name = (first ++ " " ++ last)%string
      /\ has_char " " first = false /\ has_char " " last = false.
Proof.
  unfold split_name. split.
  - intros H.
    pose proof (join_split_on " " player_name) as Hj.
    pose proof (split_on_fields " " player_name) as Hf.
    destruct (split_on " " player_name) as [|a [|b [|c l]]]; try discriminate.
    injection H as <- <-.
    apply Forall_cons_iff in Hf. destruct Hf as [Ha Hf].
    apply Forall_cons_iff in Hf. destruct Hf as [Hb _].
    cbn [join] in Hj. auto.
  - intros (-> & Ha & Hb).
    change (first ++ " " ++ last)%string with (join " " [first; last]).
    rewrite split_on_join; [reflexivity | discriminate | repeat constructor; assumption].
Qed.








(** *** Decimal numerals *)












(** ** Rounding, continued *)

Lemma round_half_even_inject_Z (z : Z) : round_half_even (inject_Z z) = z.
Proof.
  unfold round_half_even, inject_Z. cbn [Qnum Qden].
  rewrite Z.div_1_r, Z.mod_1_r. reflexivity.
Qed.



(** ** Predictor, continued *)


(** X4: the prediction is undefined exactly when one of the three
    averages is. *)
Theorem predict_next_game_stat_nan (s v r : pyfloat) :
  predict_next_game_stat s v r = NaN <-> s = NaN \/ v = NaN \/ r = NaN.
Proof.
  split.
  - destruct s as [|s]; [auto|]. destruct v as [|v]; [auto|].
    destruct r as [|r]; [auto|].
    rewrite predict_finite. discriminate.
  - intros [-> | [-> | ->]]; [reflexivity | |].
    + destruct s; reflexivity.
    + destruct s, v; reflexivity.
Qed.








(** ** Event classifier, continued *)

Section ClassifierMore.

Variable to_numeric : string -> option Q.




(** X9: of every classified event the player's team and the opponent
    are the two teams of the record, the opponent being the home team
    exactly in the top half of an inning; they differ when the two teams
    of the record do. *)
Theorem classified_teams (df : RawFrame) (c : ClassifiedEvent) :
  In c (rows (get_statcast_data to_numeric df)) ->
  (inning_topbot (source c) = "Top"%string ->
   player_team c = away_team (source c) /\ opponent c = home_team (source c))
  /\ (inning_topbot (source c) <> "Top"%string ->
      player_team c = home_team (source c) /\ opponent c = away_team (source c))
  /\ (home_team (source c) <> away_team (source c) ->
      opponent c <> player_team c).
Proof.
  intros Hin.
  destruct (rows_get_statcast_data to_numeric df c Hin) as (r & e & _ & _ & ->).
  cbn [classify source player_team opponent].
  destruct (String.eqb_spec (inning_topbot r) "Top") as [E | E].
  - repeat split; congruence.
  - repeat split; congruence.
Qed.

(** X10: total bases are 1, 2, 3 and 4 for a single, a double, a triple
    and a home run and 0 for every other outcome; a hit is one of these
    four. *)
Theorem classified_total_bases (df : RawFrame) (c : ClassifiedEvent) :
  In c (rows (get_statcast_data to_numeric df)) ->
  exists e : string,
    events (source c) = Some e
    /\ (s_TB (stats c) = 1 <-> e = "single"%string)
    /\ (s_TB (stats c) = 2 <-> e = "double"%string)
    /\ (s_TB (stats c) = 3 <-> e = "triple"%string)
    /\ (s_TB (stats c) = 4 <-> e = "home_run"%string)
    /\ (s_TB (stats c) = 0 <-> s_H (stats c) = 0)
    /\ (s_H (stats c) = 1 <-> s_TB (stats c) <> 0)
    /\ 0 <= s_TB (stats c) <= 4
    /\ consistent (stats c).
Proof.
  intros Hin.
  destruct (rows_get_statcast_data to_numeric df c Hin) as (r & e & _ & He & ->).
  exists e. unfold consistent.
  cbn [classify source stats s_1B s_2B s_3B s_HR s_TB s_H].
  split; [exact He|].
  split_flags e; try (exfalso; congruence);
    repeat split; intros; auto; try lia; try congruence; try discriminate.
Qed.

Lemma astype_int_inject_Z (z : Z) : astype_int (inject_Z z) = z.
Proof. unfold astype_int, inject_Z. cbn [Qnum Qden]. apply Z.quot_1_r. Qed.






End ClassifierMore.

(** ** The at-bat table *)

Section LastTen.

Variable to_numeric : string -> option Q.



(** X13: on the result for an input without rows or without the outcome
    column the at-bat table raises [KeyError] on [events]. *)
Theorem last_10_key_error (df : RawFrame) :
  frame_empty (raw_columns df) (raw_rows df) = true
  \/ has_column "events" (raw_columns df) = false ->
  last_10 (get_statcast_data to_numeric df) = KeyError "events".
Proof.
  intros H.
  assert (E : get_statcast_data to_numeric df
              = {| columns := empty_columns; rows := [] |}).
  { unfold get_statcast_data.
    destruct H as [-> | ->]; [reflexivity|].
    rewrite orb_true_r. reflexivity. }
  rewrite E. reflexivity.
Qed.


End LastTen.

(** ** Career table *)

Section CareerFacts.

Context {Row : Type}.
Variable batting_stats : Z -> list Row.
Variable name_of : Row -> string.
Variable str_contains : string -> string -> bool.

Lemma In_py_range (a b y : Z) : In y (py_range a b) <-> a <= y < b.
Proof.
  unfold py_range. rewrite in_map_iff. split.
  - intros (i & <- & Hi). apply in_seq in Hi. lia.
  - intros H. exists (Z.to_nat (y - a)). split; [lia|].
    apply in_seq. lia.
Qed.

Lemma py_range_sorted (a b : Z) : StronglySorted Z.lt (py_range a b).
Proof.
  unfold py_range. generalize (Z.to_nat (b - a)) as n. intros n.
  generalize 0%nat as s. induction n as [|n IH]; intros s; cbn [seq map].
  - constructor.
  - constructor; [apply IH|].
    apply Forall_forall. intros y Hy. apply in_map_iff in Hy.
    destruct Hy as (i & <- & Hi). apply in_seq in Hi. lia.
Qed.

Lemma concat_full_data (name : string) (years : list Z) :
  List.concat (full_data batting_stats name_of str_contains name years)
  = flat_map (fun y => map (pair y)
                           (select_name name_of str_contains name (batting_stats y)))
             years.
Proof.
  induction years as [|y years IH]; [reflexivity|].
  cbn [full_data flat_map].
  destruct (select_name name_of str_contains name (batting_stats y)) as [|r rs];
    cbn [List.concat map app]; rewrite IH; reflexivity.
Qed.

(** X15: the career table holds exactly the matching rows of the season
    tables of 2015 to the current year, each with its season, in season
    order; before 2015 it is empty. *)
Theorem get_career_stats_seasons (today : Z) (name : string) :
  (forall y r,
      In (y, r) (get_career_stats batting_stats name_of str_contains today name)
      <-> 2015 <= y <= today
          /\ In r (batting_stats y)
          /\ str_contains name (name_of r) = true)
  /\ StronglySorted Z.le
       (map fst (get_career_stats batting_stats name_of str_contains today name))
  /\ (today < 2015 ->
      get_career_stats batting_stats name_of str_contains today name = []).
Proof.
  unfold get_career_stats. rewrite concat_full_data.
  split; [|split].
  - intros y r. rewrite in_flat_map. split.
    + intros (y' & Hy' & Hin). apply in_map_iff in Hin.
      destruct Hin as (r' & E & Hr'). injection E as -> ->.
      apply In_py_range in Hy'. unfold select_name in Hr'.
      apply filter_In in Hr'. destruct Hr'. repeat split; auto; lia.
    + intros (Hy & Hr & Hm). exists y. split; [apply In_py_range; lia|].
      apply in_map, filter_In. auto.
  - pose proof (py_range_sorted 2015 (today + 1)) as Hs.
    induction Hs as [|y years Hs IH Hall]; cbn [flat_map map]; [constructor|].
    rewrite map_app, map_map. cbn [fst].
    induction (select_name name_of str_contains name (batting_stats y)) as [|r rs IHr];
      cbn [map app]; [exact IH|].
    constructor; [exact IHr|].
    apply Forall_app. split.
    + apply Forall_forall. intros z Hz. apply in_map_iff in Hz.
      destruct Hz as (? & <- & _). lia.
    + apply Forall_forall. intros z Hz. apply in_map_iff in Hz.
      destruct Hz as ([y' r'] & <- & Hin). cbn [fst].
      apply in_flat_map in Hin. destruct Hin as (y'' & Hy'' & Hin).
      apply in_map_iff in Hin. destruct Hin as (? & E & _). injection E as -> _.
      rewrite Forall_forall in Hall. specialize (Hall _ Hy''). lia.
  - intros Hlt. unfold py_range.
    replace (Z.to_nat (today + 1 - 2015)) with 0%nat by lia. reflexivity.
Qed.

End CareerFacts.

(** ** Aggregator, continued *)

Lemma string_leb_trans (a b c : string) :
  String.leb a b = true -> String.leb b c = true -> String.leb a c = true.
Proof.
  unfold String.leb. revert b c.
  induction a as [|x a IH]; intros [|y b] [|z c]; cbn [String.compare];
    try reflexivity; try discriminate.
  unfold Ascii.compare.
  destruct (N.compare_spec (N_of_ascii x) (N_of_ascii y)) as [Exy | Lxy | Gxy];
    destruct (N.compare_spec (N_of_ascii y) (N_of_ascii z)) as [Eyz | Lyz | Gyz];
    try discriminate;
    destruct (N.compare_spec (N_of_ascii x) (N_of_ascii z)) as [Exz | Lxz | Gxz];
    try reflexivity; try lia; intros Hab Hbc.
  - exact (IH b c Hab Hbc).
Qed.

Lemma key_leb_trans (a b c : key) :
  key_leb a b = true -> key_leb b c = true -> key_leb a c = true.
Proof.
  unfold key_leb. intros Hab Hbc.
  apply orb_true_iff in Hab. apply orb_true_iff in Hbc. apply orb_true_iff.
  rewrite !andb_true_iff, !Z.ltb_lt, !Z.eqb_eq in *.
  destruct Hab as [Hab | [Eab Sab]], Hbc as [Hbc | [Ebc Sbc]];
    try (left; lia).
  right. split; [lia | exact (string_leb_trans _ _ _ Sab Sbc)].
Qed.

Lemma key_leb_antisym (a b : key) :
  key_leb a b = true -> key_leb b a = true -> a = b.
Proof.
  unfold key_leb. intros Hab Hba.
  apply orb_true_iff in Hab. apply orb_true_iff in Hba.
  rewrite !andb_true_iff, !Z.ltb_lt, !Z.eqb_eq in *.
  destruct a as [d o], b as [d' o']. cbn [fst snd] in *.
  destruct Hab as [Hab | [Eab Sab]], Hba as [Hba | [Eba Sba]]; try lia.
  f_equal; [exact Eab | exact (String.leb_antisym _ _ Sab Sba)].
Qed.

Lemma sorted_perm_unique {A : Type} (R : A -> A -> Prop) (l l' : list A) :
  (forall a b, R a b -> R b a -> a = b) ->
  StronglySorted R l -> StronglySorted R l' -> Permutation l l' -> l = l'.
Proof.
  intros Hanti Hs. revert l'.
  induction Hs as [|a l Hs IH Ha]; intros l' Hs' Hp.
  - apply Permutation_nil in Hp. congruence.
  - destruct Hs' as [|b l' Hs' Hb].
    + apply Permutation_sym, Permutation_nil in Hp. discriminate.
    + assert (E : a = b).
      { assert (Hina : In a (b :: l')) by (apply (Permutation_in _ Hp); left; reflexivity).
        assert (Hinb : In b (a :: l)) by (apply (Permutation_in _ (Permutation_sym Hp)); left; reflexivity).
        destruct Hina as [-> | Hina]; [reflexivity|].
        destruct Hinb as [-> | Hinb]; [reflexivity|].
        rewrite Forall_forall in Ha, Hb. apply Hanti; auto. }
      subst b. f_equal. apply IH; [exact Hs'|].
      apply Permutation_cons_inv with a. exact Hp.
Qed.

Lemma StronglySorted_filter {A : Type} (R : A -> A -> Prop) (f : A -> bool)
  (l : list A) :
  StronglySorted R l -> StronglySorted R (filter f l).
Proof.
  induction 1 as [|a l Hs IH Ha]; cbn [filter]; [constructor|].
  destruct (f a); [|exact IH].
  constructor; [exact IH|].
  rewrite Forall_forall in *. intros x Hx. apply filter_In in Hx. apply Ha, Hx.
Qed.

Lemma sorted_keys (l : list key) :
  StronglySorted (fun a b => key_leb a b = true) (sort_by key_leb l).
Proof.
  apply Sorted_StronglySorted; [exact key_leb_trans|].
  apply sort_by_sorted, key_leb_total.
Qed.

Lemma filter_perm {A : Type} (f : A -> bool) (l l' : list A) :
  Permutation l l' -> Permutation (filter f l) (filter f l').
Proof.
  induction 1 as [|x l l' _ IH|x y l|l l' l'' _ IH1 _ IH2]; cbn [filter].
  - constructor.
  - destruct (f x); [apply perm_skip|]; exact IH.
  - destruct (f x), (f y); try reflexivity. apply perm_swap.
  - etransitivity; eassumption.
Qed.

Lemma stats_sum_perm (l l' : list Stats) :
  Permutation l l' -> stats_sum l = stats_sum l'.
Proof.
  induction 1 as [|x l l' _ IH|x y l|l l' l'' _ IH1 _ IH2];
    cbn [stats_sum fold_right].
  - reflexivity.
  - fold (stats_sum l). fold (stats_sum l'). congruence.
  - fold (stats_sum l). rewrite !stats_add_assoc. f_equal. apply stats_add_comm.
  - congruence.
Qed.

Lemma group_keys_perm (rs rs' : list ClassifiedEvent) :
  Permutation rs rs' ->
  sort_by key_leb (nodup key_eq_dec (map key_of rs))
  = sort_by key_leb (nodup key_eq_dec (map key_of rs')).
Proof.
  intros Hp.
  apply (sorted_perm_unique (fun a b => key_leb a b = true));
    [exact key_leb_antisym | apply sorted_keys | apply sorted_keys |].
  rewrite !sort_by_perm.
  apply NoDup_Permutation; [apply NoDup_nodup | apply NoDup_nodup |].
  intros k. rewrite !nodup_In.
  split; apply Permutation_in; [|symmetry]; apply Permutation_map, Hp.
Qed.

(** X16: the aggregation and the table of recent games do not depend on
    the order in which the plate appearances arrive. *)
Theorem groupby_sum_order_independent (rs rs' : list ClassifiedEvent) (k : nat) :
  Permutation rs rs' ->
  groupby_sum rs = groupby_sum rs'
  /\ last_games k (groupby_sum rs) = last_games k (groupby_sum rs').
Proof.
  intros Hp.
  assert (E : groupby_sum rs = groupby_sum rs').
  { unfold groupby_sum. rewrite (group_keys_perm rs rs' Hp).
    apply map_ext. intros key0. unfold group_line. f_equal.
    apply stats_sum_perm, Permutation_map. unfold group_rows.
    apply filter_perm, Hp. }
  split; [exact E | rewrite E; reflexivity].
Qed.

Lemma filter_map_comm {A B : Type} (f : B -> bool) (g : A -> B) (l : list A) :
  filter f (map g l) = map g (filter (fun a => f (g a)) l).
Proof.
  induction l as [|a l IH]; [reflexivity|].
  cbn [map filter]. destruct (f (g a)); cbn [map]; congruence.
Qed.

Lemma group_rows_selected (p : string -> bool) (k : key)
  (rs : list ClassifiedEvent) :
  p (snd k) = true ->
  group_rows k (filter (fun e => p (opponent e)) rs) = group_rows k rs.
Proof.
  intros Hk. unfold group_rows.
  induction rs as [|e rs IH]; [reflexivity|].
  cbn [filter]. destruct (key_eqb (key_of e) k) eqn:Ek.
  - assert (Hp : p (opponent e) = true).
    { apply key_eqb_eq in Ek. rewrite <- Ek in Hk. exact Hk. }
    rewrite Hp. cbn [filter]. rewrite Ek, IH. reflexivity.
  - destruct (p (opponent e)); cbn [filter]; rewrite ?Ek; exact IH.
Qed.

Lemma groupby_sum_filter (p : string -> bool) (rs : list ClassifiedEvent) :
  groupby_sum (filter (fun e => p (opponent e)) rs)
  = filter (fun g => p (g_opponent g)) (groupby_sum rs).
Proof.
  unfold groupby_sum. rewrite filter_map_comm. cbn [group_line g_opponent].
  set (rs' := filter (fun e => p (opponent e)) rs).
  assert (Ek : sort_by key_leb (nodup key_eq_dec (map key_of rs'))
               = filter (fun k => p (snd k))
                        (sort_by key_leb (nodup key_eq_dec (map key_of rs)))).
  { apply (sorted_perm_unique (fun a b => key_leb a b = true));
      [exact key_leb_antisym | apply sorted_keys
      | apply StronglySorted_filter, sorted_keys |].
    rewrite sort_by_perm.
    apply NoDup_Permutation.
    - apply NoDup_nodup.
    - apply NoDup_filter.
      apply (Permutation_NoDup (l := nodup key_eq_dec (map key_of rs)));
        [symmetry; apply sort_by_perm | apply NoDup_nodup].
    - intros k0. rewrite nodup_In, filter_In.
      assert (Hs : In k0 (sort_by key_leb (nodup key_eq_dec (map key_of rs)))
                   <-> In k0 (map key_of rs)).
      { split; intros H.
        - apply (nodup_In key_eq_dec).
          exact (Permutation_in _ (sort_by_perm key_leb _) H).
        - apply (Permutation_in _ (Permutation_sym (sort_by_perm key_leb _))).
          apply nodup_In, H. }
      rewrite Hs, !in_map_iff. unfold rs'. split.
      + intros (e & <- & He). apply filter_In in He. destruct He as [He Hp].
        split; [exists e; auto | exact Hp].
      + intros ((e & <- & He) & Hp). exists e. split; [reflexivity|].
        apply filter_In. auto. }
  rewrite Ek. apply map_ext_in. intros k0 Hk0.
  apply filter_In in Hk0. destruct Hk0 as [_ Hp].
  unfold group_line. f_equal. f_equal. f_equal.
  apply group_rows_selected, Hp.
Qed.

(** X17: with an opponent filter the aggregated lines are the lines of
    the unfiltered aggregation whose opponent matches: filtering the
    events and filtering the game lines give the same table. *)
Theorem game_lines_of_filter (str_contains : string -> string -> bool)
  (opponent_input : string) (statcast_df : ClassifiedFrame) :
  opponent_input <> EmptyString ->
  groupby_sum (rows (df_filtered str_contains opponent_input statcast_df))
  = filter (fun g => str_contains opponent_input (g_opponent g))
           (groupby_sum (rows statcast_df))
  /\ columns (df_filtered str_contains opponent_input statcast_df)
     = columns statcast_df.
Proof.
  intros Hne. unfold df_filtered.
  destruct opponent_input as [|ch rest]; [congruence|].
  cbn [rows columns]. split; [|reflexivity].
  apply (groupby_sum_filter (str_contains (String ch rest))).
Qed.

Lemma consistent_zero : consistent stats_zero.
Proof. unfold consistent. cbn. lia. Qed.

Lemma consistent_add (a b : Stats) :
  consistent a -> consistent b -> consistent (stats_add a b).
Proof.
  unfold consistent, stats_add.
  cbn [s_1B s_2B s_3B s_HR s_TB s_H s_RBI]. lia.
Qed.

Lemma consistent_bounds (s : Stats) :
  consistent s -> s_H s <= s_TB s <= 4 * s_H s.
Proof.
  destruct s as [a b c d tb h rbi]. unfold consistent.
  cbn [s_1B s_2B s_3B s_HR s_TB s_H]. lia.
Qed.

Lemma consistent_sum (l : list Stats) :
  Forall consistent l -> consistent (stats_sum l).
Proof.
  induction 1 as [|s l Hs _ IH]; [exact consistent_zero|].
  cbn [stats_sum fold_right]. apply consistent_add; assumption.
Qed.

Lemma classify_consistent (to_numeric : string -> option Q) (b : bool)
  (r : PlateAppearance) (e : string) :
  consistent (stats (classify to_numeric b r e)).
Proof.
  unfold consistent. cbn [classify stats s_1B s_2B s_3B s_HR s_TB s_H].
  split_flags e; lia.
Qed.

(** X18: every game line built from classified events, filtered or not,
    keeps the relations of a single event: H is the sum of the four hit
    counts, TB their weighted sum, and H <= TB <= 4 H. *)
Theorem game_lines_consistent (to_numeric : string -> option Q) (df : RawFrame)
  (keep : ClassifiedEvent -> bool) (k : nat) :
  Forall (fun g =>
            consistent (g_stats g)
            /\ s_H (g_stats g) <= s_TB (g_stats g) <= 4 * s_H (g_stats g))
         (last_games k
            (groupby_sum (filter keep (rows (get_statcast_data to_numeric df))))).
Proof.
  apply Forall_forall. intros g Hg.
  apply last_games_incl in Hg.
  unfold groupby_sum in Hg. apply in_map_iff in Hg.
  destruct Hg as (key0 & <- & _). cbn [group_line g_stats].
  assert (Hc : consistent
                 (stats_sum (map stats
                    (group_rows key0
                       (filter keep (rows (get_statcast_data to_numeric df))))))).
  { apply consistent_sum, Forall_map, Forall_forall. intros e He.
    unfold group_rows in He. apply filter_In in He. destruct He as [He _].
    apply filter_In in He. destruct He as [He _].
    apply rows_get_statcast_data in He.
    destruct He as (r & ev & _ & _ & ->). apply classify_consistent. }
  split; [exact Hc | apply consistent_bounds, Hc].
Qed.

(** *** Totals per date *)

Lemma zsum_app (l l' : list Z) : zsum (l ++ l') = zsum l + zsum l'.
Proof. induction l as [|x l IH]; cbn [app zsum]; lia. Qed.

Lemma zsum_pointwise_add {K : Type} (f g : K -> Z) (ks : list K) :
  zsum (map (fun k => f k + g k) ks) = zsum (map f ks) + zsum (map g ks).
Proof. induction ks as [|k ks IH]; cbn [map zsum]; lia. Qed.

Lemma zsum_zeros {K : Type} (f : K -> Z) (ks : list K) :
  (forall k, In k ks -> f k = 0) -> zsum (map f ks) = 0.
Proof.
  induction ks as [|k ks IH]; intros Hz; [reflexivity|].
  cbn [map zsum]. rewrite IH, Hz; auto using in_eq, in_cons.
Qed.

Lemma zsum_single_date (x d0 : Z) (ds : list Z) :
  NoDup ds -> In d0 ds ->
  zsum (map (fun d => if d0 =? d then x else 0) ds) = x.
Proof.
  induction 1 as [|d ds Hnin _ IH]; intros Hin; [destruct Hin|].
  cbn [map zsum]. destruct (Z.eqb_spec d0 d) as [<- | Hne].
  - rewrite zsum_zeros; [lia|].
    intros d Hd. destruct (Z.eqb_spec d0 d); [congruence | reflexivity].
  - destruct Hin as [-> | Hin]; [congruence|]. rewrite IH by exact Hin. lia.
Qed.

Lemma date_sums_partition (f : ClassifiedEvent -> Z) (ds : list Z)
  (rs : list ClassifiedEvent) :
  NoDup ds ->
  (forall e, In e rs -> In (game_date (source e)) ds) ->
  zsum (map (fun d => zsum (map f (filter (fun e => game_date (source e) =? d) rs)))
            ds)
  = zsum (map f rs).
Proof.
  intros Hnd. induction rs as [|e rs IH]; intros Hcov.
  - apply zsum_zeros. reflexivity.
  - cbn [map zsum].
    rewrite <- IH by (intros e' He'; apply Hcov; right; exact He').
    rewrite <- (zsum_single_date (f e) (game_date (source e)) ds Hnd)
      at 1 by (apply Hcov; left; reflexivity).
    rewrite <- zsum_pointwise_add.
    f_equal. apply map_ext. intros d. cbn [filter].
    destruct (game_date (source e) =? d); reflexivity.
Qed.

Lemma per_date_sums_total (c : category) (rs : list ClassifiedEvent) :
  zsum (per_date_sums c rs) = zsum (map (fun e => stat c (stats e)) rs).
Proof.
  unfold per_date_sums.
  apply (date_sums_partition (fun e => stat c (stats e))).
  - apply (Permutation_NoDup (l := nodup Z.eq_dec (map (fun e => game_date (source e)) rs)));
      [symmetry; apply sort_by_perm | apply NoDup_nodup].
  - intros e He.
    apply (Permutation_in (l := nodup Z.eq_dec (map (fun e => game_date (source e)) rs)));
      [symmetry; apply sort_by_perm|].
    apply nodup_In. apply (in_map (fun e => game_date (source e))), He.
Qed.

(** X19: grouped by date or by date and opponent, the totals of a
    category are those of the events; the average per date is this total
    over the number of distinct dates, undefined only without events. *)
Theorem per_date_sums_conserve (c : category) (rs : list ClassifiedEvent) :
  zsum (per_date_sums c rs) = zsum (map (fun e => stat c (stats e)) rs)
  /\ zsum (map (fun g => stat c (g_stats g)) (groupby_sum rs))
     = zsum (map (fun e => stat c (stats e)) rs)
  /\ List.length (per_date_sums c rs)
     = List.length (nodup Z.eq_dec (map (fun e => game_date (source e)) rs))
  /\ (mean (per_date_sums c rs) = NaN <-> rs = [])
  /\ (rs <> [] ->
      mean (per_date_sums c rs)
      = Fin (zsum (map (fun e => stat c (stats e)) rs)
             # Pos.of_nat (List.length
                 (nodup Z.eq_dec (map (fun e => game_date (source e)) rs))))).
Proof.
  assert (Hlen : List.length (per_date_sums c rs)
                 = List.length (nodup Z.eq_dec (map (fun e => game_date (source e)) rs))).
  { unfold per_date_sums. rewrite length_map.
    apply Permutation_length, sort_by_perm. }
  assert (Hne : rs <> [] -> per_date_sums c rs <> []).
  { intros Hrs Hnil. rewrite Hnil in Hlen. cbn [List.length] in Hlen.
    destruct rs as [|e rs]; [congruence|].
    assert (Hin : In (game_date (source e))
                     (nodup Z.eq_dec (map (fun e => game_date (source e)) (e :: rs))))
      by (apply nodup_In; left; reflexivity).
    destruct (nodup Z.eq_dec _); [destruct Hin | discriminate]. }
  split; [apply per_date_sums_total|].
  split.
  { rewrite <- (map_map g_stats (stat c)), <- stat_stats_sum, groupby_sum_total.
    rewrite stat_stats_sum, map_map. reflexivity. }
  split; [exact Hlen|].
  split.
  - split.
    + intros Hm. destruct rs as [|e rs]; [reflexivity|].
      specialize (Hne ltac:(discriminate)).
      destruct (per_date_sums c (e :: rs)); [congruence | discriminate].
    + intros ->. reflexivity.
  - intros Hrs. specialize (Hne Hrs).
    rewrite <- per_date_sums_total, <- Hlen.
    destruct (per_date_sums c rs); [congruence | reflexivity].
Qed.

(** ** Trend evaluator, continued *)

Lemma count_true_bounds (l : list bool) :
  0 <= count_true l <= Z.of_nat (List.length l).
Proof.
  unfold count_true. induction l as [|h l IH]; cbn [map zsum List.length]; [lia|].
  destruct h; cbn [Z.b2z]; lia.
Qed.

Lemma count_true_skipn (n : nat) (l : list bool) :
  count_true (skipn n l) <= count_true l.
Proof.
  rewrite <- (firstn_skipn n l) at 2.
  unfold count_true. rewrite map_app.
  assert (Happ : forall a b, zsum (a ++ b) = zsum a + zsum b).
  { intros a b. induction a as [|x a IH]; cbn [List.app zsum]; lia. }
  rewrite Happ.
  pose proof (count_true_bounds (firstn n l)) as H. unfold count_true in H. lia.
Qed.

Lemma iloc_last_nested {A : Type} (w1 w2 : nat) (l : list A) :
  (w1 <= w2)%nat ->
  iloc_last w1 l
  = skipn ((List.length l - w1) - (List.length l - w2)) (iloc_last w2 l).
Proof.
  intros H. unfold iloc_last. rewrite skipn_skipn. f_equal. lia.
Qed.

(** X20: the hit count of a window is between 0 and the number of games
    the window holds, and a shorter window never counts more hits than
    a longer one. *)
Theorem window_hits_nested (w1 w2 : positive) (df : list GameStatLine)
  (c : category) (t : Z) :
  (w1 <= w2)%positive ->
  0 <= window_hits w1 df c t
  /\ window_hits w1 df c t <= window_hits w2 df c t
  /\ window_hits w2 df c t
     <= Z.of_nat (Nat.min (Pos.to_nat w2) (List.length df)).
Proof.
  intros Hw. unfold window_hits.
  split; [apply count_true_bounds|]. split.
  - rewrite (iloc_last_nested (Pos.to_nat w1) (Pos.to_nat w2)) by lia.
    apply count_true_skipn.
  - pose proof (count_true_bounds (iloc_last (Pos.to_nat w2) (hit_flags df c t))) as H.
    rewrite length_iloc_last in H. unfold hit_flags in H.
    rewrite length_map in H. exact (proj2 H).
Qed.

Lemma window_hits_nested_witness :
  (3 <= 5)%positive
  /\ 0 <= window_hits 3 five_games Cat_HR 1
  /\ window_hits 3 five_games Cat_HR 1 <= window_hits 5 five_games Cat_HR 1
  /\ window_hits 5 five_games Cat_HR 1
     <= Z.of_nat (Nat.min (Pos.to_nat 5) (List.length five_games)).
Proof.
  assert (H : (3 <= 5)%positive) by lia.
  split; [exact H | exact (window_hits_nested 3 5 five_games Cat_HR 1 H)].
Defined.

Lemma rate_round_range (w : positive) (n : Z) :
  0 <= n <= Z.pos w ->
  0 <= round_half_even ((n # w) * inject_Z 100) <= 100.
Proof.
  intros Hn.
  rewrite <- (round_half_even_inject_Z 0) at 1.
  rewrite <- (round_half_even_inject_Z 100) at 3.
  split; apply round_half_even_mono;
    unfold Qle, inject_Z; cbn [Qnum Qden Qmult]; nia.
Qed.

(** X21: every cell of the table shows a count between 0 and its
    window size and a percentage between 0 and 100. *)
Theorem rate_cell_range (w : positive) (df : list GameStatLine)
  (c : category) (t : Z) :
  exists n p : Z,
    rate_cell w (window_hits w df c t)
    = (show_Z n ++ "/" ++ show_Z (Z.pos w) ++ " (" ++ show_Z p ++ "%)")%string
    /\ n = window_hits w df c t
    /\ 0 <= n <= Z.pos w
    /\ 0 <= p <= 100.
Proof.
  exists (window_hits w df c t),
         (round_half_even ((window_hits w df c t # w) * inject_Z 100)).
  assert (Hn : 0 <= window_hits w df c t <= Z.pos w).
  { unfold window_hits.
    pose proof (count_true_bounds (iloc_last (Pos.to_nat w) (hit_flags df c t))) as H.
    rewrite length_iloc_last in H. lia. }
  split; [reflexivity|]. split; [reflexivity|].
  split; [exact Hn | apply rate_round_range, Hn].
Qed.

Lemma iloc_last_app {A : Type} (w : nat) (older recent : list A) :
  (w <= List.length recent)%nat ->
  iloc_last w (older ++ recent) = iloc_last w recent.
Proof.
  intros H. unfold iloc_last. rewrite length_app, skipn_app.
  replace (List.length older + List.length recent - w - List.length older)%nat
    with (List.length recent - w)%nat by lia.
  rewrite skipn_all2 by lia. reflexivity.
Qed.

(** X22: a window looks at the most recent games only: games before the
    last [w] change no count. *)
Theorem window_hits_recent (w : positive) (older recent : list GameStatLine)
  (c : category) (t : Z) :
  (Pos.to_nat w <= List.length recent)%nat ->
  window_hits w (older ++ recent) c t = window_hits w recent c t
  /\ rate_cell w (window_hits w (older ++ recent) c t)
     = rate_cell w (window_hits w recent c t).
Proof.
  intros H.
  assert (E : window_hits w (older ++ recent) c t = window_hits w recent c t).
  { unfold window_hits, hit_flags. rewrite !iloc_last_map, iloc_last_app by exact H.
    reflexivity. }
  split; [exact E | rewrite E; reflexivity].
Qed.

Lemma window_hits_recent_witness :
  (Pos.to_nat 3 <= List.length (skipn 2 five_games))%nat
  /\ window_hits 3 (firstn 2 five_games ++ skipn 2 five_games) Cat_HR 1
     = window_hits 3 (skipn 2 five_games) Cat_HR 1.
Proof.
  assert (H : (Pos.to_nat 3 <= List.length (skipn 2 five_games))%nat)
    by (cbn; lia).
  split; [exact H|].
  exact (proj1 (window_hits_recent 3 (firstn 2 five_games) (skipn 2 five_games)
                  Cat_HR 1 H)).
Defined.

Lemma window_hits_none (w : positive) (df : list GameStatLine) (c : category)
  (t : Z) :
  Forall (fun g => stat c (g_stats g) < t) df -> window_hits w df c t = 0.
Proof.
  intros H. rewrite window_hits_counts. unfold hits_spec.
  replace (filter _ _) with (@nil GameStatLine); [reflexivity|].
  symmetry. apply (Forall_skipn _ (List.length df - Pos.to_nat w)) in H.
  fold (iloc_last (Pos.to_nat w) df) in H.
  induction H as [|g l Hg _ IH]; [reflexivity|].
  cbn [filter]. destruct (Z.leb_spec t (stat c (g_stats g))); [lia | exact IH].
Qed.

(** X23: a threshold that no game reaches, and any threshold on an empty
    table, gives 0/10 (0%), 0/5 (0%) and 0/3 (0%). *)
Theorem calculate_hit_rates_no_hit (df : list GameStatLine) (c : category)
  (t : Z) :
  Forall (fun g => stat c (g_stats g) < t) df ->
  calculate_hit_rates df c [t]
  = [ {| Trend := (category_name c ++ " ≥ " ++ show_Z t)%string;
         Last_10 := "0/10 (0%)"; Last_5 := "0/5 (0%)"; Last_3 := "0/3 (0%)" |} ].
Proof.
  intros H. unfold calculate_hit_rates. cbn [map].
  rewrite !(window_hits_none _ df c t H). reflexivity.
Qed.

Lemma calculate_hit_rates_no_hit_witness :
  Forall (fun g => stat Cat_HR (g_stats g) < 3) five_games
  /\ calculate_hit_rates five_games Cat_HR [3]
     = [ {| Trend := "HR ≥ 3"; Last_10 := "0/10 (0%)"; Last_5 := "0/5 (0%)";
            Last_3 := "0/3 (0%)" |} ]
  /\ calculate_hit_rates [] Cat_TB [1]
     = [ {| Trend := "TB ≥ 1"; Last_10 := "0/10 (0%)"; Last_5 := "0/5 (0%)";
            Last_3 := "0/3 (0%)" |} ].
Proof.
  assert (H : Forall (fun g => stat Cat_HR (g_stats g) < 3) five_games)
    by (repeat constructor; cbn; lia).
  split; [exact H|].
  split; [exact (calculate_hit_rates_no_hit five_games Cat_HR 3 H)|].
  exact (calculate_hit_rates_no_hit [] Cat_TB 1 (Forall_nil _)).
Defined.

(** ** The predicted stat line, continued *)

Section StatLine.

Variable str_contains : string -> string -> bool.

Lemma columns_df_filtered (opponent_input : string) (sdf : ClassifiedFrame) :
  columns (df_filtered str_contains opponent_input sdf) = columns sdf.
Proof. unfold df_filtered. destruct opponent_input; reflexivity. Qed.


Lemma game_stats_ok (sdf : ClassifiedFrame) :
  missing_column (columns sdf) (group_columns ++ summed_columns) = None ->
  game_stats sdf = Ok (last_games 10 (groupby_sum (rows sdf))).
Proof. intros H. unfold game_stats, grouped. rewrite H. reflexivity. Qed.

(** X24: when the opponent filter keeps no plate appearance, every
    predicted value is undefined and none can be shown as a percentage. *)
Theorem stat_line_no_match (opponent_input : string) (sdf : ClassifiedFrame) :
  missing_column (columns sdf) (group_columns ++ summed_columns) = None ->
  rows (df_filtered str_contains opponent_input sdf) = [] ->
  stat_line str_contains opponent_input sdf
  = Ok (map (fun c => (c, NaN)) categories)
  /\ Forall (fun x => display_percent (snd x) = None)
            (map (fun c : category => (c, NaN)) categories).
Proof.
  intros Hc Hr. unfold stat_line.
  rewrite game_stats_ok by (rewrite columns_df_filtered; exact Hc).
  rewrite Hr. split; [|repeat constructor].
  f_equal. apply map_ext. intros c. f_equal.
  change (recent_avg c (last_games 10 (groupby_sum []))) with NaN.
  destruct (season_avg c sdf), (vs_team_avg c _); reflexivity.
Qed.






End StatLine.


(** ** Sample runs, continued *)


Lemma classified_teams_witness :
  In strikeout_event (rows (get_statcast_data parse_decimal two_days))
  /\ inning_topbot (source strikeout_event) <> "Top"%string
  /\ player_team strikeout_event = "BOS"%string
  /\ opponent strikeout_event = "NYY"%string.
Proof.
  assert (A : In strikeout_event (rows (get_statcast_data parse_decimal two_days))).
  { right. right. left. reflexivity. }
  assert (B : inning_topbot (source strikeout_event) <> "Top"%string)
    by discriminate.
  destruct (classified_teams parse_decimal two_days strikeout_event A)
    as (_ & H & _).
  split; [exact A|]. split; [exact B | exact (H B)].
Defined.

Lemma classified_total_bases_witness :
  In homer_event (rows (get_statcast_data parse_decimal two_days))
  /\ exists e : string,
       events (source homer_event) = Some e
       /\ (s_TB (stats homer_event) = 4 <-> e = "home_run"%string).
Proof.
  assert (A : In homer_event (rows (get_statcast_data parse_decimal two_days))).
  { right. left. reflexivity. }
  split; [exact A|].
  destruct (classified_total_bases parse_decimal two_days homer_event A)
    as (e & He & _ & _ & _ & H4 & _).
  exists e. split; [exact He | exact H4].
Defined.



Lemma last_10_key_error_witness :
  has_column "events" (raw_columns no_events_column) = false
  /\ frame_empty (raw_columns no_rows) (raw_rows no_rows) = true
  /\ last_10 (get_statcast_data parse_decimal no_events_column) = KeyError "events"
  /\ last_10 (get_statcast_data parse_decimal no_rows) = KeyError "events".
Proof.
  assert (A : has_column "events" (raw_columns no_events_column) = false)
    by reflexivity.
  assert (B : frame_empty (raw_columns no_rows) (raw_rows no_rows) = true)
    by reflexivity.
  split; [exact A|]. split; [exact B|].
  split; [exact (last_10_key_error parse_decimal no_events_column (or_intror A))|].
  exact (last_10_key_error parse_decimal no_rows (or_introl B)).
Defined.


Lemma groupby_sum_order_independent_witness :
  Permutation [single_event; strikeout_event] [strikeout_event; single_event]
  /\ groupby_sum [single_event; strikeout_event]
     = groupby_sum [strikeout_event; single_event].
Proof.
  assert (A : Permutation [single_event; strikeout_event]
                          [strikeout_event; single_event]) by apply perm_swap.
  split; [exact A|].
  exact (proj1 (groupby_sum_order_independent _ _ 10 A)).
Defined.

Lemma game_lines_of_filter_witness :
  "nyy"%string <> EmptyString
  /\ groupby_sum (rows (df_filtered contains_literal "nyy"
                          (get_statcast_data parse_decimal two_days)))
     = filter (fun g => contains_literal "nyy" (g_opponent g))
              (groupby_sum (rows (get_statcast_data parse_decimal two_days))).
Proof.
  assert (A : "nyy"%string <> EmptyString) by discriminate.
  split; [exact A|].
  exact (proj1 (game_lines_of_filter contains_literal "nyy"
                  (get_statcast_data parse_decimal two_days) A)).
Defined.

Lemma stat_line_no_match_witness :
  missing_column (columns (get_statcast_data parse_decimal two_days))
                 (group_columns ++ summed_columns) = None
  /\ rows (df_filtered contains_literal "sea"
             (get_statcast_data parse_decimal two_days)) = []
  /\ stat_line contains_literal "sea" (get_statcast_data parse_decimal two_days)
     = Ok (map (fun c => (c, NaN)) categories).
Proof.
  assert (A : missing_column (columns (get_statcast_data parse_decimal two_days))
                             (group_columns ++ summed_columns) = None)
    by reflexivity.
  assert (B : rows (df_filtered contains_literal "sea"
                      (get_statcast_data parse_decimal two_days)) = [])
    by reflexivity.
  split; [exact A|]. split; [exact B|].
  exact (proj1 (stat_line_no_match contains_literal "sea"
                  (get_statcast_data parse_decimal two_days) A B)).
Defined.

